(** * Product feature analysis: a shallow embedding of
    [scripts/feature_analysis.py] and the properties of its specification.

    Conventions of the embedding.

    - A Python [str] is a list of characters, [str := list ascii].  The
      character classes the script relies on ([str.lower], [str.split],
      [\b], [\s]) are given on the ASCII range, where they are what
      Python has; a statement that depends on them beyond it carries the
      hypothesis that the text is ASCII ([ascii_text]).  The bullet of
      the report is carried as its three UTF-8 bytes.
    - Python integers are [Z]; Python floats are the binary64 numbers of
      [PrimFloat], so that ratios and averages round as they do in the
      script.  The integers 0 and 1 that the script stores where a float
      is expected are the floats 0 and 1.
    - A [dict] or [Counter] is an association list in insertion order, the
      order Python iterates them in.
    - A table cell is what the script can observe of it: [pd.isna],
      [str] and [float].
    - Exceptions are a [result]; console output, figures and written
      files are the events of a run, in order.
    - The plotting stage is kept as the figures it saves; what is drawn is
      outside the embedding.  What the plotting libraries do is not in
      the script: where the plotting stage may raise is given to a run
      as [plotting].
    - Lines 289-291 of the script, the body of the AREAS FOR IMPROVEMENT
      section, are not well-formed Python as they stand (a fragment of
      the comprehension is repeated in the middle of it).  The embedding
      does not read them: the text of that section is a parameter of the
      report, a function of the record table. *)

From Stdlib Require Import Ascii String.
From Stdlib Require DecimalString.
From Stdlib Require Import List Bool ZArith Lia Floats QArith Permutation Sorted.
Import ListNotations.

Local Open Scope Z_scope.

(** ** Python strings *)

Module PyStr.

Definition str := list ascii.

Definition lit (s : string) : str := list_ascii_of_string s.

(** [len(s)], for strings and lists alike *)
Definition len {A : Type} (s : list A) : Z := Z.of_nat (length s).

(** [s.startswith(p)] *)
Fixpoint startswith (p s : str) : bool :=
  match p, s with
  | [], _ => true
  | _ :: _, [] => false
  | c :: p', d :: s' => Ascii.eqb c d && startswith p' s'
  end.

(** [s.find(p)], scanning from offset [i] of the original text. *)
Fixpoint find_from (p s : str) (i : Z) : Z :=
  if startswith p s then i
  else match s with
       | [] => -1
       | _ :: s' => find_from p s' (i + 1)
       end.

(** [text.find(feature)]: lowest index of an occurrence, [-1] if none. *)
Definition find (text feature : str) : Z := find_from feature text 0.

(** [p in s] *)
Fixpoint contains (p s : str) : bool :=
  startswith p s ||
  match s with
  | [] => false
  | _ :: s' => contains p s'
  end.

(** Index normalisation of a slice bound: negative bounds count from the
    end, and every bound is clipped to [0, len]. *)
Definition clamp_index (n i : Z) : Z :=
  if i <? 0 then Z.max (i + n) 0 else Z.min i n.

(** [s[a:b]] *)
Definition slice (s : str) (a b : Z) : str :=
  let n := len s in
  let a' := clamp_index n a in
  let b' := clamp_index n b in
  firstn (Z.to_nat (b' - a')) (skipn (Z.to_nat a') s).

(** [str == str] *)
Fixpoint str_eqb (s t : str) : bool :=
  match s, t with
  | [], [] => true
  | c :: s', d :: t' => Ascii.eqb c d && str_eqb s' t'
  | _, _ => false
  end.

(** [x in xs] for a list of strings *)
Definition str_in (x : str) (xs : list str) : bool := existsb (str_eqb x) xs.

Definition is_upper (c : ascii) : bool :=
  let n := nat_of_ascii c in (65 <=? n)%nat && (n <=? 90)%nat.

Definition lower_char (c : ascii) : ascii :=
  if is_upper c then ascii_of_nat (nat_of_ascii c + 32) else c.

(** [s.lower()] on ASCII text: the letters A-Z are lowered, every other
    character is kept. *)
Definition lower (s : str) : str := map lower_char s.

(** Whitespace as [str.split], [str.strip] and [\s] see it on ASCII
    text: tab, line feed, vertical tab, form feed, carriage return, the
    four separators 0x1c-0x1f, and space. *)
Definition is_space (c : ascii) : bool :=
  let n := nat_of_ascii c in
  ((9 <=? n)%nat && (n <=? 13)%nat) || ((28 <=? n)%nat && (n <=? 32)%nat).

(** [\w] on ASCII text: letters, digits and underscore. *)
Definition is_word (c : ascii) : bool :=
  let n := nat_of_ascii c in
  ((48 <=? n)%nat && (n <=? 57)%nat) ||
  ((65 <=? n)%nat && (n <=? 90)%nat) ||
  ((97 <=? n)%nat && (n <=? 122)%nat) ||
  (n =? 95)%nat.

(** [s.lstrip()], [s.rstrip()], [s.strip()] *)
Fixpoint lstrip (s : str) : str :=
  match s with
  | c :: s' => if is_space c then lstrip s' else s
  | [] => []
  end.

Definition rstrip (s : str) : str := rev (lstrip (rev s)).

Definition strip (s : str) : str := rstrip (lstrip s).

(** [s.split()]: the maximal runs of non-whitespace characters.  [cur] is
    the run being read, in reverse. *)
Fixpoint split_go (s : str) (cur : str) : list str :=
  match s with
  | [] => match cur with [] => [] | _ => [rev cur] end
  | c :: s' =>
      if is_space c
      then match cur with
           | [] => split_go s' []
           | _ => rev cur :: split_go s' []
           end
      else split_go s' (c :: cur)
  end.

Definition split (s : str) : list str := split_go s [].

(** [sep.join(parts)] *)
Fixpoint join (sep : str) (parts : list str) : str :=
  match parts with
  | [] => []
  | [p] => p
  | p :: ps => p ++ sep ++ join sep ps
  end.

(** [sum(xs)] over integers *)
Definition py_sum (xs : list Z) : Z := fold_left Z.add xs 0.

(** The text has an occurrence of [p]: some prefix, then [p], then some
    suffix. *)
Definition Occurs (p s : str) : Prop := exists pre post, s = pre ++ p ++ post.

(** The text has an occurrence of [p] at offset [length pre] and none
    before it. *)
Definition FirstOccurrence (p s pre post : str) : Prop :=
  s = pre ++ p ++ post /\
  forall pre' post', s = pre' ++ p ++ post' -> (length pre <= length pre')%nat.

End PyStr.

Import PyStr.

(** ** The two regular-expression shapes the script uses *)

Module Regex.

(** One element of an alternative: a literal character, or [.] (any
    character but a line feed). *)
Inductive atom : Type :=
| Lit (c : ascii)
| AnyChar.

Definition alternative := list atom.

Definition lits (s : string) : alternative := map Lit (lit s).

Definition atom_matches (a : atom) (c : ascii) : bool :=
  match a with
  | Lit d => Ascii.eqb d c
  | AnyChar => negb (Ascii.eqb c "010"%char)
  end.

Definition is_word_opt (c : option ascii) : bool :=
  match c with
  | Some c => is_word c
  | None => false
  end.

(** [\b] between the character [prev] (if any) and the head of [s] (if
    any): exactly one side is a word character. *)
Definition word_boundary (prev : option ascii) (s : str) : bool :=
  xorb (is_word_opt prev) (is_word_opt (hd_error s)).

(** Match one alternative at the head of [s]; the result is the last
    character consumed (or [prev] for an empty alternative) and the rest
    of the text. *)
Fixpoint match_alt (a : alternative) (prev : option ascii) (s : str)
  : option (option ascii * str) :=
  match a with
  | [] => Some (prev, s)
  | x :: a' =>
      match s with
      | [] => None
      | c :: s' => if atom_matches x c then match_alt a' (Some c) s' else None
      end
  end.

(** [\b(a1|...|an)\b] matches at the head of [s]. *)
Definition match_word_here (alts : list alternative) (prev : option ascii) (s : str) : bool :=
  word_boundary prev s &&
  existsb (fun a =>
             match match_alt a prev s with
             | Some (last, rest) => word_boundary last rest
             | None => false
             end) alts.

(** [re.search(r'\b(a1|...|an)\b', s)] finds a match. *)
Fixpoint search_word_from (alts : list alternative) (prev : option ascii) (s : str) : bool :=
  match_word_here alts prev s ||
  match s with
  | [] => false
  | c :: s' => search_word_from alts (Some c) s'
  end.

Definition search_word (alts : list alternative) (s : str) : bool :=
  search_word_from alts None s.

(** Number of leading whitespace characters, what a greedy [\s*] takes. *)
Fixpoint leading_spaces (s : str) : nat :=
  match s with
  | c :: s' => if is_space c then S (leading_spaces s') else O
  | [] => O
  end.

(** Length of the match of [\b(a1|...|an)\s*] at the head of [s]: the
    first alternative that matches, then all the whitespace after it. *)
Fixpoint first_alt_length (alts : list alternative) (prev : option ascii) (s : str) : option nat :=
  match alts with
  | [] => None
  | a :: alts' =>
      match match_alt a prev s with
      | Some (_, rest) => Some (length a + leading_spaces rest)%nat
      | None => first_alt_length alts' prev s
      end
  end.

Definition match_prefix_length (alts : list alternative) (prev : option ascii) (s : str) : option nat :=
  if word_boundary prev s then first_alt_length alts prev s else None.

(** [re.sub(r'\b(a1|...|an)\s*', '', s)]: scan left to right, drop every
    match, resume after it.  [skip] counts the characters of the current
    match still to drop. *)
Fixpoint sub_go (alts : list alternative) (s : str) (prev : option ascii) (skip : nat) : str :=
  match s with
  | [] => []
  | c :: s' =>
      match skip with
      | S k => sub_go alts s' (Some c) k
      | O =>
          match match_prefix_length alts prev s with
          | Some (S k) => sub_go alts s' (Some c) k
          | _ => c :: sub_go alts s' (Some c) O
          end
      end
  end.

Definition sub_prefix_words (alts : list alternative) (s : str) : str :=
  sub_go alts s None O.

(** The text has one of the alternatives as a whole word: between [pre]
    and [post], with a word boundary on each side. *)
Definition WholeWord (w s : str) : Prop :=
  exists pre post,
    s = pre ++ w ++ post /\
    w <> [] /\
    word_boundary (hd_error (rev pre)) (w ++ post) = true /\
    word_boundary (hd_error (rev w)) post = true.

End Regex.

Import Regex.

(** ** Context sentiment *)

Inductive sentiment : Type := positive | negative | neutral.

Definition sentiment_eqb (a b : sentiment) : bool :=
  match a, b with
  | positive, positive | negative, negative | neutral, neutral => true
  | _, _ => false
  end.

Definition positive_words : list str :=
  map lit ["good"; "great"; "excellent"; "amazing"; "love"; "perfect";
           "awesome"; "fantastic"; "best"]%string.

Definition negative_words : list str :=
  map lit ["bad"; "terrible"; "awful"; "hate"; "worst"; "horrible";
           "disappointing"; "poor"; "worst"]%string.

(** [sum(1 for word in words if word in context)] *)
Definition word_hits (words : list str) (context : str) : Z :=
  py_sum (map (fun _ => 1) (filter (fun word => contains word context) words)).

Definition positive_count (context : str) : Z := word_hits positive_words context.
Definition negative_count (context : str) : Z := word_hits negative_words context.

Definition analyze_context_sentiment (text feature : str) : sentiment :=
  let feature_index := find text feature in
  if feature_index =? -1 then neutral
  else
    let context_start := Z.max 0 (feature_index - 50) in
    let context_end := Z.min (len text) (feature_index + len feature + 50) in
    let context := slice text context_start context_end in
    let positive_count := positive_count context in
    let negative_count := negative_count context in
    if positive_count >? negative_count then positive
    else if negative_count >? positive_count then negative
    else neutral.

(** The last [n] characters of a text. *)
Definition last_chars (n : nat) (s : str) : str := skipn (length s - n) s.

(** ** Feature extraction *)

Definition feature_patterns : list (str * list alternative) :=
  [ (lit "battery", [lits "battery"; lits "power"; lits "charging"; lits "charge"]);
    (lit "camera", [lits "camera"; lits "photo"; lits "picture"; lits "image"]);
    (lit "display", [lits "screen"; lits "display"; lits "monitor"]);
    (lit "audio", [lits "sound"; lits "audio"; lits "speaker"; lits "music"; lits "volume"]);
    (lit "design", [lits "design"; lits "look"; lits "appearance"; lits "style"; lits "color"]);
    (lit "performance", [lits "performance"; lits "speed"; lits "fast"; lits "slow"; lits "lag"]);
    (lit "price", [lits "price"; lits "cost"; lits "value"; lits "expensive"; lits "cheap";
                   lits "affordable"]);
    (lit "size", [lits "size"; lits "weight"; lits "portable"; lits "compact"; lits "heavy"]);
    (lit "quality", [lits "quality"; lits "build"; lits "material"; lits "durability"]);
    (lit "usability", [lits "easy"; lits "difficult";
                       (lits "user" ++ [AnyChar] ++ lits "friendly")%list;
                       lits "interface"; lits "setup"]);
    (lit "delivery", [lits "delivery"; lits "shipping"; lits "packaging"; lits "arrived"]);
    (lit "service", [lits "service"; lits "support"; lits "help"; lits "customer"]) ]%string.

Definition bigram_terms : list str := map lit ["good"; "bad"; "great"; "poor"]%string.

Definition adjective_alternatives : list alternative :=
  [lits "good"; lits "bad"; lits "great"; lits "poor"; lits "excellent"; lits "terrible"]%string.

(** The labels of the fixed patterns that match the lowercased review, in
    the order of [feature_patterns]. *)
Definition pattern_features (review_lower : str) : list str :=
  map fst (filter (fun fp => search_word (snd fp) review_lower) feature_patterns).

(** [words[i] + " " + words[i+1]] for [i] in [range(len(words) - 1)] *)
Fixpoint bigrams (words : list str) : list str :=
  match words with
  | w1 :: ((w2 :: _) as rest) => (w1 ++ lit " " ++ w2) :: bigrams rest
  | _ => []
  end.

(** One turn of the bigram loop. *)
Definition bigram_step (review_features : list str) (bigram : str) : list str :=
  if existsb (fun term => contains term bigram) bigram_terms then
    let feature := strip (sub_prefix_words adjective_alternatives bigram) in
    if (len feature >? 2) && negb (str_in feature review_features)
    then review_features ++ [feature]
    else review_features
  else review_features.

(** The labels one review contributes. *)
Definition review_features (review_lower : str) : list str :=
  fold_left bigram_step (bigrams (split review_lower)) (pattern_features review_lower).

(** ** Dictionaries, counters and sorting *)

Section Dict.
Context {V : Type}.

Definition dict := list (str * V).

Fixpoint dict_get (k : str) (d : dict) : option V :=
  match d with
  | [] => None
  | (k', v) :: d' => if str_eqb k k' then Some v else dict_get k d'
  end.

(** [d[k] = v]: an existing key keeps its place, a new key goes last. *)
Fixpoint dict_set (k : str) (v : V) (d : dict) : dict :=
  match d with
  | [] => [(k, v)]
  | (k', v') :: d' =>
      if str_eqb k k' then (k', v) :: d' else (k', v') :: dict_set k v d'
  end.
End Dict.

Arguments dict V : clear implicits.

(** [c[k] += 1] *)
Fixpoint counter_incr (k : str) (c : dict Z) : dict Z :=
  match c with
  | [] => [(k, 1)]
  | (k', n) :: c' =>
      if str_eqb k k' then (k', n + 1) :: c' else (k', n) :: counter_incr k c'
  end.

(** [Counter(labels)] *)
Definition Counter (labels : list str) : dict Z :=
  fold_left (fun c k => counter_incr k c) labels [].

Section Sorted.
Context {A K : Type} (lt : K -> K -> bool) (key : A -> K).

(** Insert [x] after every element that is not greater than it. *)
Fixpoint insert_sorted (x : A) (l : list A) : list A :=
  match l with
  | [] => [x]
  | y :: l' => if lt (key x) (key y) then x :: l else y :: insert_sorted x l'
  end.

Definition sort_stable (l : list A) : list A :=
  fold_left (fun acc x => insert_sorted x acc) l [].

(** [sorted(l, key=key, reverse=reverse)]: stable in both directions,
    a reversed sort being the reverse of the stable sort of the
    reversed list.  Python compares keys with [<] only, here [lt]; on
    keys that [<] orders totally (integers, floats without NaN) a stable
    sort has one possible result, the one computed here.  With a NaN
    among the keys the result depends on the order in which the sort
    compares them, and the one computed here need not be Python's. *)
Definition sorted (reverse : bool) (l : list A) : list A :=
  if reverse then rev (sort_stable (rev l)) else sort_stable l.
End Sorted.

(** [counter.most_common(n)] *)
Definition most_common (n : nat) (c : dict Z) : list (str * Z) :=
  firstn n (sorted Z.ltb snd true c).

(** ** Numbers *)

(** [float(z)] for an integer of magnitude below 2^53, where the
    conversion is exact; the counts and lengths it is applied to are
    sizes of lists.  Larger magnitudes are outside the embedding (from
    2^63 on the machine integer wraps). *)
Definition float_of_Z (z : Z) : float :=
  if z <? 0 then PrimFloat.opp (PrimFloat.of_uint63 (Uint63.of_Z (- z)))
  else PrimFloat.of_uint63 (Uint63.of_Z z).

(** The arithmetic the metrics are computed in.  The script computes in
    binary64 ([float_arith]); [Q_arith] is the same arithmetic without
    rounding. *)
Record arith (R : Type) : Type := {
  of_int : Z -> R;
  sub : R -> R -> R;
  div : R -> R -> R
}.

Arguments of_int {R}.
Arguments sub {R}.
Arguments div {R}.

Definition float_arith : arith float :=
  {| of_int := float_of_Z; sub := PrimFloat.sub; div := PrimFloat.div |}.

Definition Q_arith : arith Q :=
  {| of_int := inject_Z; sub := Qminus; div := Qdiv |}.

(** [np.mean(xs)] for a non-empty list: the sum over the count.  The sum
    is taken left to right, which is numpy's order below eight elements;
    from eight elements on numpy adds in blocks and the last bit of an
    inexact sum may differ from the one computed here. *)
Definition np_mean (xs : list float) : float :=
  PrimFloat.div (fold_left PrimFloat.add xs 0%float) (float_of_Z (len xs)).

(** [xs.count(x)] *)
Definition count_sentiment (x : sentiment) (xs : list sentiment) : Z :=
  Z.of_nat (length (filter (sentiment_eqb x) xs)).

(** ** The review table *)

(** A cell of the table, as the script observes it: whether [pd.isna]
    holds of it, what [str] makes of it, and what [float] makes of it
    ([None] when [float] raises [ValueError]). *)
Record cell : Type := {
  isna : bool;
  as_str : str;
  as_float : option float
}.

(** A cell holding a text that [float] does not parse. *)
Definition text_cell (s : string) : cell :=
  {| isna := false; as_str := lit s; as_float := None |}.

(** A cell holding the integer [z], printed as [shown]. *)
Definition int_cell (shown : string) (z : Z) : cell :=
  {| isna := false; as_str := lit shown; as_float := Some (float_of_Z z) |}.

(** A missing value, NaN. *)
Definition missing_cell : cell :=
  {| isna := true; as_str := lit "nan"; as_float := Some PrimFloat.nan |}.

(** A table with a default integer index: row [i] has index [i]. *)
Record DataFrame : Type := {
  columns : list str;
  rows : list (list cell)
}.

Fixpoint column_position (col : str) (cols : list str) : nat :=
  match cols with
  | [] => O
  | c :: cols' => if str_eqb col c then O else S (column_position col cols')
  end.

(** [df.loc[idx, col]] *)
Definition loc (df : DataFrame) (idx : nat) (col : str) : cell :=
  nth (column_position col (columns df)) (nth idx (rows df) []) missing_cell.

Fixpoint enumerate_from {A : Type} (i : nat) (l : list A) : list (nat * A) :=
  match l with
  | [] => []
  | x :: l' => (i, x) :: enumerate_from (S i) l'
  end.

(** [df[col].items()] *)
Definition column_items (df : DataFrame) (col : str) : list (nat * cell) :=
  enumerate_from 0
    (map (fun row => nth (column_position col (columns df)) row missing_cell) (rows df)).

(** [df[col].dropna().items()] *)
Definition dropna_items (df : DataFrame) (col : str) : list (nat * cell) :=
  filter (fun item => negb (isna (snd item))) (column_items df col).

(** ** Exceptions *)

Inductive exn : Type := ValueError.

Inductive result (A : Type) : Type :=
| Ok (a : A)
| Raise (e : exn).

Arguments Ok {A}.
Arguments Raise {A}.

Definition bind {A B : Type} (r : result A) (k : A -> result B) : result B :=
  match r with
  | Ok a => k a
  | Raise e => Raise e
  end.

Notation "x <- r ;; k" := (bind r (fun x => k))
  (at level 61, r at next level, right associativity).

(** A [for] loop whose body may raise. *)
Fixpoint for_each {A S : Type} (body : S -> A -> result S) (items : list A) (s : S) : result S :=
  match items with
  | [] => Ok s
  | x :: items' => s' <- body s x ;; for_each body items' s'
  end.

(** ** Feature extraction, continued *)

(** The list [all_features] at the end of the loop over the reviews. *)
Definition all_features (reviews : list cell) : list str :=
  fold_left
    (fun all_features review =>
       if isna review then all_features
       else all_features ++ review_features (lower (as_str review)))
    reviews [].

(** [extract_features_from_reviews(reviews)], the count table it returns. *)
Definition extract_features_from_reviews (reviews : list cell) : dict Z :=
  Counter (all_features reviews).

(** ** Sentiment aggregation *)

Record FeatureRecord : Type := {
  count : Z;
  avg_rating : float;
  positive_ratio : float;
  negative_ratio : float;
  neutral_ratio : float;
  total_mentions : Z
}.

(** The lists one feature accumulates over the reviews. *)
Definition mentions : Type := (list float * list sentiment)%type.

(** The body of the loop over the reviews. *)
Definition scan_review (df : DataFrame) (rating_col : option str) (feature : str)
    (acc : mentions) (item : nat * cell) : result mentions :=
  let '(feature_ratings, feature_sentiments) := acc in
  let '(idx, review) := item in
  if isna review then Ok acc
  else
    let review_lower := lower (as_str review) in
    if contains feature review_lower then
      feature_ratings' <-
        match rating_col with
        | Some rating_col =>
            let rating := loc df idx rating_col in
            if negb (isna rating) then
              match as_float rating with
              | Some x => Ok (feature_ratings ++ [x])
              | None => Raise ValueError
              end
            else Ok feature_ratings
        | None => Ok feature_ratings
        end ;;
      let sentiment := analyze_context_sentiment review_lower feature in
      Ok (feature_ratings', feature_sentiments ++ [sentiment])
    else Ok acc.

Definition scan_reviews (df : DataFrame) (review_col : str) (rating_col : option str)
    (feature : str) : result mentions :=
  for_each (scan_review df rating_col feature) (dropna_items df review_col) ([], []).

(** The sentiment ratios of the "calculate metrics" step, in the order
    positive, negative, neutral. *)
Definition sentiment_ratios {R : Type} (ar : arith R) (feature_sentiments : list sentiment)
  : R * R * R :=
  let positive_ratio :=
    match feature_sentiments with
    | _ :: _ => div ar (of_int ar (count_sentiment positive feature_sentiments))
                       (of_int ar (len feature_sentiments))
    | [] => of_int ar 0
    end in
  let negative_ratio :=
    match feature_sentiments with
    | _ :: _ => div ar (of_int ar (count_sentiment negative feature_sentiments))
                       (of_int ar (len feature_sentiments))
    | [] => of_int ar 0
    end in
  (positive_ratio, negative_ratio,
   sub ar (sub ar (of_int ar 1) positive_ratio) negative_ratio).

Definition feature_record (count : Z) (m : mentions) : FeatureRecord :=
  let '(feature_ratings, feature_sentiments) := m in
  let avg_rating :=
    match feature_ratings with
    | _ :: _ => np_mean feature_ratings
    | [] => float_of_Z 0
    end in
  let '(positive_ratio, negative_ratio, neutral_ratio) :=
    sentiment_ratios float_arith feature_sentiments in
  {| count := count;
     avg_rating := avg_rating;
     positive_ratio := positive_ratio;
     negative_ratio := negative_ratio;
     neutral_ratio := neutral_ratio;
     total_mentions := len feature_ratings |}.

(** The body of the loop over the top-20 features. *)
Definition analyze_feature (df : DataFrame) (review_col : str) (rating_col : option str)
    (feature_analysis : dict FeatureRecord) (fc : str * Z) : result (dict FeatureRecord) :=
  let '(feature, count) := fc in
  m <- scan_reviews df review_col rating_col feature ;;
  Ok (dict_set feature (feature_record count m) feature_analysis).

Definition analyze_feature_sentiment (df : DataFrame) (review_col : str)
    (rating_col : option str) (features : dict Z) : result (dict FeatureRecord) :=
  for_each (analyze_feature df review_col rating_col) (most_common 20 features) [].

(** ** Formatting *)

Definition nl : str := ["010"%char].

(** [str(n)] for an integer *)
Definition str_of_Z (z : Z) : str :=
  lit (DecimalString.NilZero.string_of_int (Z.to_int z)).

Fixpoint repeat_str (s : str) (n : nat) : str :=
  match n with
  | O => []
  | S n' => s ++ repeat_str s n'
  end.

(** [s * n] for a string and an integer *)
Definition str_mul (s : str) (n : Z) : str := repeat_str s (Z.to_nat n).

(** Left padding with zeros up to a width. *)
Definition zfill (width : nat) (s : str) : str :=
  repeat_str (lit "0") (width - length s) ++ s.

(** Round a non-negative rational [num / den] to the nearest integer, ties
    to even. *)
Definition round_half_even (num den : Z) : Z :=
  let q := num / den in
  let r := num mod den in
  if (2 * r >? den) || ((2 * r =? den) && Z.odd q) then q + 1 else q.

(** [format(x, '.<digits>f')]: the exact binary value of [x] rounded to
    [digits] decimals, ties to even. *)
Definition format_fixed (digits : nat) (x : float) : str :=
  let scale := 10 ^ Z.of_nat digits in
  let render (s : bool) (n : Z) : str :=
    (if s then lit "-" else []) ++
    str_of_Z (n / scale) ++
    match digits with
    | O => []
    | _ => lit "." ++ zfill digits (str_of_Z (n mod scale))
    end in
  match Prim2SF x with
  | S754_nan => lit "nan"
  | S754_infinity s => if s then lit "-inf" else lit "inf"
  | S754_zero s => render s 0
  | S754_finite s m e =>
      if 0 <=? e then render s (Zpos m * 2 ^ e * scale)
      else render s (round_half_even (Zpos m * scale) (2 ^ (- e)))
  end.

(** [format(x, '.1%')] *)
Definition format_percent (x : float) : str :=
  match Prim2SF x with
  | S754_nan => lit "nan%"
  | S754_infinity s => if s then lit "-inf%" else lit "inf%"
  | _ => format_fixed 1 (PrimFloat.mul x 100%float) ++ lit "%"
  end.

Record Timestamp : Type := {
  year : Z; month : Z; day : Z; hour : Z; minute : Z; second : Z
}.

(** [now.strftime('%Y-%m-%d %H:%M:%S')] *)
Definition strftime (now : Timestamp) : str :=
  zfill 4 (str_of_Z (year now)) ++ lit "-" ++ zfill 2 (str_of_Z (month now)) ++ lit "-" ++
  zfill 2 (str_of_Z (day now)) ++ lit " " ++ zfill 2 (str_of_Z (hour now)) ++ lit ":" ++
  zfill 2 (str_of_Z (minute now)) ++ lit ":" ++ zfill 2 (str_of_Z (second now)).

(** ** The summary report *)

Definition item : Type := (str * FeatureRecord)%type.

(** [enumerate(l)]: the entries with their ranks, from 0. *)
Definition enumerate {A : Type} (l : list A) : list (nat * A) := enumerate_from 0 l.

Definition by_frequency (feature_analysis : dict FeatureRecord) : list item :=
  sorted Z.ltb (fun x : item => count (snd x)) true feature_analysis.

Definition by_rating (feature_analysis : dict FeatureRecord) : list item :=
  sorted PrimFloat.ltb (fun x : item => avg_rating (snd x)) true feature_analysis.

Definition by_positive_sentiment (feature_analysis : dict FeatureRecord) : list item :=
  sorted PrimFloat.ltb (fun x : item => positive_ratio (snd x)) true feature_analysis.

Definition bullet : str := ["226"; "128"; "162"]%char.

Definition frequency_line (ix : nat * item) : str :=
  let '(i, (feature, data)) := ix in
  str_of_Z (Z.of_nat i + 1) ++ lit ". " ++ feature ++ lit ": " ++
  str_of_Z (count data) ++ lit " mentions".

Definition rating_line (ix : nat * item) : str :=
  let '(i, (feature, data)) := ix in
  str_of_Z (Z.of_nat i + 1) ++ lit ". " ++ feature ++ lit ": " ++
  format_fixed 2 (avg_rating data) ++ lit "/5.0 (from " ++
  str_of_Z (total_mentions data) ++ lit " ratings)".

Definition positive_line (ix : nat * item) : str :=
  let '(i, (feature, data)) := ix in
  str_of_Z (Z.of_nat i + 1) ++ lit ". " ++ feature ++ lit ": " ++
  format_percent (positive_ratio data) ++ lit " positive sentiment".

(** The entries of HIGHEST RATED FEATURES, with their ranks. *)
Definition highest_rated (feature_analysis : dict FeatureRecord) : list (nat * item) :=
  filter (fun ix : nat * item => PrimFloat.ltb 0 (avg_rating (snd (snd ix))))
         (enumerate (firstn 10 (by_rating feature_analysis))).

(** The text of the AREAS FOR IMPROVEMENT section for a record table.
    Lines 289-291 of the script, which compute it, are not well-formed;
    whatever they are taken to compute, it is made of the record table
    alone. *)
Definition improvement_section : Type := dict FeatureRecord -> str.

(** The text of the report, one entry per template line; an entry that
    is a joined block may itself span several lines, or be empty. *)
Definition report_parts (improvement : improvement_section)
    (feature_analysis : dict FeatureRecord) (total_reviews : Z)
    (generated : str) : list str :=
  [ lit "PRODUCT FEATURE ANALYSIS SUMMARY REPORT";
    lit "======================================";
    lit "Generated: " ++ generated;
    [];
    lit "OVERVIEW";
    lit "--------";
    bullet ++ lit " Total Reviews Analyzed: " ++ str_of_Z total_reviews;
    bullet ++ lit " Unique Features Identified: " ++ str_of_Z (len feature_analysis);
    bullet ++ lit " Total Feature Mentions: " ++
      str_of_Z (py_sum (map (fun x : item => count (snd x)) feature_analysis));
    [];
    lit "TOP FEATURES BY FREQUENCY";
    lit "------------------------";
    join nl (map frequency_line (enumerate (firstn 10 (by_frequency feature_analysis))));
    [];
    lit "HIGHEST RATED FEATURES";
    lit "---------------------";
    join nl (map rating_line (highest_rated feature_analysis));
    [];
    lit "MOST POSITIVELY PERCEIVED FEATURES";
    lit "---------------------------------";
    join nl (map positive_line
               (enumerate (firstn 10 (by_positive_sentiment feature_analysis))));
    [];
    lit "AREAS FOR IMPROVEMENT";
    lit "--------------------";
    improvement feature_analysis;
    [];
    lit "RECOMMENDATIONS";
    lit "--------------";
    lit "1. Leverage strengths in highly-rated features for marketing";
    lit "2. Address concerns in low-rated, frequently mentioned features";
    lit "3. Monitor sentiment trends for key product aspects";
    lit "4. Focus development on features with mixed sentiment";
    [];
    lit "METHODOLOGY";
    lit "-----------";
    bullet ++ lit " Feature extraction using pattern matching and NLP";
    bullet ++ lit " Sentiment analysis based on contextual word analysis";
    bullet ++ lit " Rating correlation with feature mentions";
    bullet ++ lit " Statistical aggregation across all reviews" ].

Definition report_text (improvement : improvement_section)
    (feature_analysis : dict FeatureRecord) (total_reviews : Z) (now : Timestamp) : str :=
  nl ++ join nl (report_parts improvement feature_analysis total_reviews (strftime now)) ++ nl.

(** ** The pipeline and its effects *)

Inductive message : Type :=
| MsgStart
| MsgLoaded (n : Z) (path : str)
| MsgLoadError (e : str)
| MsgNoReviewColumn
| MsgUsingColumn (col : str)
| MsgExtracting
| MsgExtracted (n : Z)
| MsgAnalyzing
| MsgVisualizing
| MsgGenerating
| MsgReportSaved
| MsgSeparator
| MsgReport (report : str)
| MsgComplete.

Inductive event : Type :=
| Print (m : message)
| SaveFig (file : str)
| ShowPlot
| WriteFile (file : str) (content : str).

(** How a call ends: it returns, [float] raised during the analysis, or
    a plotting library raised the named exception. *)
Inductive outcome : Type :=
| Returned
| Raised (e : exn)
| PlottingRaised (e : str).

(** Where the plotting libraries raise, if they do: while the dashboard
    is drawn and saved, when it is shown, while the word cloud of a text
    is generated, drawn and saved, and when it is shown.  [None] is a
    call that returns. *)
Record plotting : Type := {
  dashboard_error : dict FeatureRecord -> option str;
  dashboard_show_error : dict FeatureRecord -> option str;
  cloud_error : str -> option str;
  cloud_show_error : str -> option str
}.

(** Libraries that never raise. *)
Definition quiet_plotting : plotting :=
  {| dashboard_error := fun _ => None;
     dashboard_show_error := fun _ => None;
     cloud_error := fun _ => None;
     cloud_show_error := fun _ => None |}.

(** An event that leaves something behind: a figure or a file. *)
Definition is_output (e : event) : bool :=
  match e with
  | SaveFig _ | WriteFile _ _ => true
  | Print _ | ShowPlot => false
  end.

(** What [pd.read_csv] gave. *)
Inductive load_result : Type :=
| LoadError (e : str)
| Loaded (df : DataFrame).

Definition review_keywords : list str :=
  map lit ["review"; "text"; "comment"; "feedback"]%string.

Definition rating_keywords : list str :=
  map lit ["rating"; "score"; "stars"]%string.

(** [[col for col in df.columns if any(keyword in col.lower() for keyword in keywords)]] *)
Definition matching_columns (keywords : list str) (cols : list str) : list str :=
  filter (fun col => existsb (fun keyword => contains keyword (lower col)) keywords) cols.

(** [' '.join([f"{feature} " * count for ...])] *)
Definition cloud_text (feature_analysis : dict FeatureRecord) : str :=
  join (lit " ")
       (map (fun x : item => str_mul (fst x ++ lit " ") (count (snd x))) feature_analysis).

(** [create_feature_visualizations(feature_analysis)]: its events, and
    the exception that ended it, if one did. *)
Definition create_feature_visualizations (lib : plotting)
    (feature_analysis : dict FeatureRecord) : list event * option str :=
  match dashboard_error lib feature_analysis with
  | Some e => ([Print MsgVisualizing], Some e)
  | None =>
      let saved := [Print MsgVisualizing; SaveFig (lit "feature_analysis_dashboard.png")] in
      match dashboard_show_error lib feature_analysis with
      | Some e => (saved, Some e)
      | None =>
          let feature_text := cloud_text feature_analysis in
          match strip feature_text with
          | [] => (saved ++ [ShowPlot], None)
          | _ :: _ =>
              match cloud_error lib feature_text with
              | Some e => (saved ++ [ShowPlot], Some e)
              | None =>
                  match cloud_show_error lib feature_text with
                  | Some e =>
                      (saved ++ [ShowPlot; SaveFig (lit "features_wordcloud.png")], Some e)
                  | None =>
                      (saved ++ [ShowPlot; SaveFig (lit "features_wordcloud.png"); ShowPlot],
                       None)
                  end
              end
          end
      end
  end.

Definition generate_summary_report (improvement : improvement_section)
    (feature_analysis : dict FeatureRecord) (total_reviews : Z) (now : Timestamp)
  : list event :=
  let report := report_text improvement feature_analysis total_reviews now in
  [Print MsgGenerating;
   WriteFile (lit "feature_analysis_report.txt") report;
   Print MsgReportSaved;
   Print MsgSeparator;
   Print (MsgReport report)].

(** [analyze_product_features(csv_file_path)]: the events of the run, in
    order, and how the call ended.  [loaded] is what reading the file
    gave, [now] the clock at report time, [lib] what the plotting
    libraries do. *)
Definition analyze_product_features (lib : plotting) (improvement : improvement_section)
    (csv_file_path : str) (loaded : load_result) (now : Timestamp)
  : list event * outcome :=
  match loaded with
  | LoadError e => ([Print MsgStart; Print (MsgLoadError e)], Returned)
  | Loaded df =>
      let start := [Print MsgStart; Print (MsgLoaded (len (rows df)) csv_file_path)] in
      match matching_columns review_keywords (columns df) with
      | [] => (start ++ [Print MsgNoReviewColumn], Returned)
      | review_col :: _ =>
          let rating_col := hd_error (matching_columns rating_keywords (columns df)) in
          let features :=
            extract_features_from_reviews (map snd (dropna_items df review_col)) in
          let extracted :=
            start ++ [Print (MsgUsingColumn review_col); Print MsgExtracting;
                      Print (MsgExtracted (len features)); Print MsgAnalyzing] in
          match analyze_feature_sentiment df review_col rating_col features with
          | Raise e => (extracted, Raised e)
          | Ok feature_analysis =>
              match create_feature_visualizations lib feature_analysis with
              | (drawn, Some e) => (extracted ++ drawn, PlottingRaised e)
              | (drawn, None) =>
                  (extracted ++ drawn ++
                   generate_summary_report improvement feature_analysis (len (rows df)) now ++
                   [Print MsgComplete],
                   Returned)
              end
          end
      end
  end.

(** ** Notions the statements use *)

(** Counting, with list multiplicity, the entries of a word list that
    occur in a text. *)
Inductive CountOccurring (text : str) : list str -> nat -> Prop :=
| count_nil : CountOccurring text [] 0
| count_hit word words n :
    Occurs word text -> CountOccurring text words n ->
    CountOccurring text (word :: words) (S n)
| count_miss word words n :
    ~ Occurs word text -> CountOccurring text words n ->
    CountOccurring text (word :: words) n.

(** The character before the position reached after reading [pre],
    [prev] being the one before [pre]. *)
Definition last_read (prev : option ascii) (pre : str) : option ascii :=
  match rev pre with
  | [] => prev
  | c :: _ => Some c
  end.

(** The number of times [k] is in a list of labels. *)
Definition occurrences_of (k : str) (labels : list str) : Z :=
  len (filter (str_eqb k) labels).

(** Every character of the text is an ASCII character. *)
Definition ascii_text (s : str) : bool :=
  forallb (fun c => (nat_of_ascii c <? 128)%nat) s.

(** The text has an occurrence of [w] that is neither preceded nor
    followed by a letter, a digit or an underscore. *)
Definition Delimited (w s : str) : Prop :=
  exists pre post,
    s = pre ++ w ++ post /\
    is_word_opt (hd_error (rev pre)) = false /\
    is_word_opt (hd_error post) = false.

(** The labels whose pattern lists the label itself as a word. *)
Definition self_named_labels : list str :=
  map lit ["battery"; "camera"; "display"; "audio"; "design"; "performance";
           "price"; "size"; "quality"; "delivery"; "service"]%string.

(** The number of offsets of the text at which [p] occurs. *)
Fixpoint occurrence_count (p s : str) : nat :=
  (if startswith p s then 1 else 0) +
  match s with
  | [] => 0
  | _ :: s' => occurrence_count p s'
  end.

(** The reviews of the text column that mention the feature, in row
    order: present, and with the feature in their lowercased text. *)
Definition mentioning (df : DataFrame) (review_col feature : str) : list (nat * cell) :=
  filter (fun item => contains feature (lower (as_str (snd item))))
         (dropna_items df review_col).

(** The classification a mentioning review contributes. *)
Definition review_sentiment (feature : str) (item : nat * cell) : sentiment :=
  analyze_context_sentiment (lower (as_str (snd item))) feature.

(** The test the loop body makes on a review before recording it. *)
Definition mentions_feature (feature : str) (item : nat * cell) : bool :=
  negb (isna (snd item)) && contains feature (lower (as_str (snd item))).

(** No entry is rated below one that comes after it. *)
Definition RatedDescending (l : list item) : Prop :=
  StronglySorted
    (fun a b : item => PrimFloat.ltb (avg_rating (snd a)) (avg_rating (snd b)) = false) l.

(** The float is 1 or one of the two binary64 numbers next to it,
    1 - 2^-53 and 1 + 2^-52. *)
Definition near_one (s : float) : bool :=
  PrimFloat.leb 0x1.fffffffffffffp-1%float s && PrimFloat.leb s 0x1.0000000000001p+0%float.

(** [positive_ratio + negative_ratio + neutral_ratio] as the script would
    evaluate it for [a] positive and [b] negative classifications out of
    [n]. *)
Definition float_ratio_sum (a b n : nat) : float :=
  let p := PrimFloat.div (float_of_Z (Z.of_nat a)) (float_of_Z (Z.of_nat n)) in
  let q := PrimFloat.div (float_of_Z (Z.of_nat b)) (float_of_Z (Z.of_nat n)) in
  PrimFloat.add (PrimFloat.add p q) (PrimFloat.sub (PrimFloat.sub 1 p) q).

(** Every split of every total from 1 to [bound] sums near one. *)
Definition ratio_sums_near_one (bound : nat) : bool :=
  forallb
    (fun n =>
       forallb
         (fun a => forallb (fun b => near_one (float_ratio_sum a b n)) (seq 0 (n - a + 1)))
         (seq 0 (n + 1)))
    (seq 1 bound).

(** The character [c] is the lowercase letter [k], in either case. *)
Definition SameLetter (k c : ascii) : Prop :=
  c = k \/
  ((97 <= nat_of_ascii k <= 122)%nat /\ (nat_of_ascii c + 32 = nat_of_ascii k)%nat).

(** The name spells the word somewhere, capitals and small letters
    alike. *)
Definition SpelledIn (word : string) (col : str) : Prop :=
  exists pre mid post,
    col = pre ++ mid ++ post /\ Forall2 SameLetter (lit word) mid.

(** A column name that spells "review", "text", "comment" or
    "feedback". *)
Definition NamesReviewText (col : str) : Prop :=
  SpelledIn "review" col \/ SpelledIn "text" col \/
  SpelledIn "comment" col \/ SpelledIn "feedback" col.








(** [counter[k]]: the count of a key, 0 for a key that is not there. *)
Definition counter_get (k : str) (c : dict Z) : Z :=
  match dict_get k c with
  | Some n => n
  | None => 0
  end.

(** The labels of the fixed patterns. *)
Definition category_labels : list str := map fst feature_patterns.

(** The review is present and the extractor gives it the label. *)
Definition carries (label : str) (review : cell) : bool :=
  negb (isna review) && str_in label (review_features (lower (as_str review))).

(** The bigram has one of the four terms that make the extractor look at
    it. *)
Definition qualifying_bigram (bigram : str) : bool :=
  existsb (fun term => contains term bigram) bigram_terms.

(** No two elements of the list are equal. *)
Fixpoint distinct (l : list str) : bool :=
  match l with
  | [] => true
  | x :: l' => negb (str_in x l') && distinct l'
  end.

(** The label and the count of a record entry. *)
Definition label_count (x : item) : str * Z := (fst x, count (snd x)).

(** The characters [mid] are matched by the alternative, one element of
    the alternative for each. *)
Definition AltMatches (alt : alternative) (mid : str) : Prop :=
  Forall2 (fun a c => atom_matches a c = true) alt mid.

(** One of the alternatives matches a stretch of the text that has a
    word boundary on each side. *)
Definition MatchesWord (alts : list alternative) (s : str) : Prop :=
  exists pre mid post alt,
    s = pre ++ mid ++ post /\ In alt alts /\ AltMatches alt mid /\
    word_boundary (last_read None pre) (mid ++ post) = true /\
    word_boundary (last_read (last_read None pre) mid) post = true.

(** The row of the review has a rating that is present. *)
Definition rated (df : DataFrame) (rating_col : str) (item : nat * cell) : bool :=
  negb (isna (loc df (fst item) rating_col)).

(** The row of the review has a rating that is present and that [float]
    rejects. *)
Definition unreadable_rating (df : DataFrame) (rating_col : str) (item : nat * cell) : bool :=
  rated df rating_col item &&
  match as_float (loc df (fst item) rating_col) with
  | Some _ => false
  | None => true
  end.

(** The average is a number. *)
Definition is_number (x : float) : bool := negb (PrimFloat.is_nan x).

(** One review with a rating that is not a number. *)
Definition unreadable_scores : DataFrame :=
  {| columns := [lit "comment"; lit "score"];
     rows := [ [text_cell "good camera"; int_cell "4" 4];
               [text_cell "bad camera"; text_cell "two stars"] ] |}.

(** ** Inputs used in the examples *)

(** The five rows the script writes to [sample_reviews.csv]. *)
Definition sample_data : DataFrame :=
  {| columns := [lit "review"; lit "rating"];
     rows :=
       [ [text_cell "Great camera quality and excellent battery life. Love the design!";
          int_cell "5" 5];
         [text_cell "Poor audio quality but good screen display. Price is reasonable.";
          int_cell "3" 3];
         [text_cell "Amazing performance and fast charging. Camera could be better.";
          int_cell "4" 4];
         [text_cell "Terrible battery life and slow performance. Good build quality though.";
          int_cell "2" 2];
         [text_cell "Perfect size and weight. Great value for money. Audio is fantastic!";
          int_cell "5" 5] ] |}.

(** Seven reviews of one camera: three praise it, two fault it, two
    only name it. *)
Definition seven_reviews : DataFrame :=
  {| columns := [lit "review"];
     rows := [ [text_cell "good camera"]; [text_cell "great camera"];
               [text_cell "love the camera"]; [text_cell "bad camera"];
               [text_cell "awful camera"]; [text_cell "camera"];
               [text_cell "a camera"] ] |}.

(** One review that the fixed pattern labels "display" without the word
    being in it. *)
Definition screen_review : DataFrame :=
  {| columns := [lit "review"]; rows := [ [text_cell "Nice screen"] ] |}.

(** One review naming the camera twice. *)
Definition twice_review : DataFrame :=
  {| columns := [lit "review"]; rows := [ [text_cell "Camera, camera!"] ] |}.

(** A table with thumbs-down scores below zero. *)
Definition negative_scores : DataFrame :=
  {| columns := [lit "comment"; lit "score"];
     rows := [ [text_cell "terrible battery"; int_cell "-1" (-1)] ] |}.




(** Four reviews whose labels are first met in increasing order of
    count. *)
Definition counted_reviews : DataFrame :=
  {| columns := [lit "review"];
     rows := [ [text_cell "Screen"]; [text_cell "Battery and camera"];
               [text_cell "Camera, battery"]; [text_cell "Camera"] ] |}.

(** The records of their analysis. *)
Definition counted_records : dict FeatureRecord :=
  [ (lit "camera", feature_record 3 ([], [neutral; neutral; neutral]));
    (lit "battery", feature_record 2 ([], [neutral; neutral]));
    (lit "display", feature_record 1 ([], [])) ].

(** Three reviews of the camera, one of them without a score, and one
    review of something else. *)
Definition partly_rated : DataFrame :=
  {| columns := [lit "comment"; lit "score"];
     rows := [ [text_cell "good camera"; int_cell "5" 5];
               [text_cell "bad camera"; missing_cell];
               [text_cell "nice phone"; int_cell "3" 3];
               [text_cell "camera ok"; int_cell "4" 4] ] |}.

(** A table with two text columns after a column that is none. *)
Definition two_text_columns : DataFrame :=
  {| columns := [lit "id"; lit "Customer_FEEDBACK"; lit "review"];
     rows := [ [int_cell "7" 7; text_cell "Great battery"; text_cell "poor screen and slow delivery"] ] |}.

(** Five records: one rated below zero, three rated above, one unrated. *)
Definition rated_records : dict FeatureRecord :=
  [ (lit "battery", feature_record 4 ([float_of_Z (-1)], [negative]));
    (lit "camera", feature_record 3 ([float_of_Z 4; float_of_Z 4], [positive; neutral]));
    (lit "price", feature_record 2 ([], [neutral]));
    (lit "screen", feature_record 2 ([float_of_Z 5], [positive]));
    (lit "sound", feature_record 1 ([float_of_Z 3; float_of_Z 2], [negative; neutral])) ].

(** A table without any text column. *)
Definition no_text_column : DataFrame :=
  {| columns := [lit "product"; lit "stars"];
     rows := [ [text_cell "phone"; int_cell "4" 4] ] |}.

Definition noon : Timestamp :=
  {| year := 2025; month := 1; day := 2; hour := 12; minute := 0; second := 0 |}.

(** The count table the pipeline extracts from the sample rows. *)
Definition sample_features : dict Z :=
  extract_features_from_reviews (map snd (dropna_items sample_data (lit "review"))).

(** The classifications of the seven camera reviews. *)
Definition seven_sentiments : list sentiment :=
  [positive; positive; positive; negative; negative; neutral; neutral].

(** * Properties *)

(** ** Strings *)

Section StringFacts.

Lemma startswith_spec (p s : str) :
  startswith p s = true <-> exists post, s = p ++ post.
Proof.
  revert s; induction p as [|c p IH]; intros s; simpl.
  - split; [intros _; now exists s | reflexivity].
  - destruct s as [|d s].
    + split; [discriminate | intros [post H]; discriminate].
    + rewrite andb_true_iff, Ascii.eqb_eq, IH. split.
      * intros [-> [post ->]]. now exists post.
      * intros [post H]. injection H as -> ->. split; [reflexivity | now exists post].
Qed.

Lemma contains_spec (p s : str) : contains p s = true <-> Occurs p s.
Proof.
  induction s as [|d s IH]; simpl.
  - rewrite orb_false_r, startswith_spec. split.
    + intros [post H]. now exists [], post.
    + intros [pre [post H]]. destruct pre; [now exists post |discriminate].
  - rewrite orb_true_iff, startswith_spec, IH. split.
    + intros [[post H] | [pre [post H]]].
      * now exists [], post.
      * exists (d :: pre), post. simpl. now rewrite H.
    + intros [pre [post H]]. destruct pre as [|c pre].
      * left. now exists post.
      * right. injection H as _ H. now exists pre, post.
Qed.

Lemma not_contains_spec (p s : str) : contains p s = false <-> ~ Occurs p s.
Proof.
  rewrite <- contains_spec. destruct (contains p s); split; congruence.
Qed.

Lemma find_from_none (p s : str) (i : Z) :
  ~ Occurs p s -> find_from p s i = -1.
Proof.
  revert i; induction s as [|d s IH]; intros i H; simpl.
  - destruct (startswith p []) eqn:E; [|reflexivity].
    exfalso. apply H. apply startswith_spec in E as [post E]. now exists [], post.
  - destruct (startswith p (d :: s)) eqn:E.
    + exfalso. apply H. apply startswith_spec in E as [post E]. now exists [], post.
    + apply IH. intros [pre [post H']]. apply H. exists (d :: pre), post.
      simpl. now rewrite H'.
Qed.

Lemma find_from_first (p s : str) (i : Z) :
  Occurs p s ->
  exists pre post, FirstOccurrence p s pre post /\ find_from p s i = i + len pre.
Proof.
  revert i; induction s as [|d s IH]; intros i H; simpl.
  - destruct H as [pre [post H]]. destruct pre; [|discriminate].
    exists [], post. split; [split; [exact H | intros; simpl; lia]|].
    simpl in H. assert (E : startswith p [] = true) by (apply startswith_spec; now exists post).
    rewrite E. unfold len. simpl. lia.
  - destruct (startswith p (d :: s)) eqn:E.
    + apply startswith_spec in E as [post E]. exists [], post.
      split; [split; [exact E | intros; simpl; lia]|]. unfold len; simpl; lia.
    + assert (Hs : Occurs p s).
      { destruct H as [pre [post H]]. destruct pre as [|c pre].
        - exfalso. assert (startswith p (d :: s) = true) by (apply startswith_spec; now exists post).
          congruence.
        - injection H as _ H. now exists pre, post. }
      destruct (IH (i + 1) Hs) as [pre [post [[Heq Hmin] Hf]]].
      exists (d :: pre), post. split; [split|].
      * simpl. now rewrite Heq.
      * intros pre' post' H'. destruct pre' as [|c pre'].
        -- exfalso. assert (startswith p (d :: s) = true) by (apply startswith_spec; now exists post').
           congruence.
        -- injection H' as _ H'. simpl. apply le_n_S. eapply Hmin. exact H'.
      * rewrite Hf. unfold len. simpl length. lia.
Qed.

Lemma app_same_length {A : Type} (a a' b b' : list A) :
  length a = length a' -> a ++ b = a' ++ b' -> a = a' /\ b = b'.
Proof.
  revert a'; induction a as [|x a IH]; intros [|y a'] L E; try discriminate.
  - now split.
  - injection E as -> E. injection L as L. destruct (IH _ L E) as [-> ->]. now split.
Qed.

Lemma first_occurrence_unique (p s pre post pre' post' : str) :
  FirstOccurrence p s pre post -> FirstOccurrence p s pre' post' ->
  pre = pre' /\ post = post'.
Proof.
  intros [H1 M1] [H2 M2].
  assert (L : length pre = length pre').
  { apply Nat.le_antisymm; [eapply M1 | eapply M2]; eassumption. }
  assert (E : pre ++ p ++ post = pre' ++ p ++ post') by congruence.
  apply app_same_length in E as [E1 E2]; [|exact L].
  split; [exact E1|]. now apply app_inv_head in E2.
Qed.

Lemma slice_window (pre mid post : str) (n : Z) :
  0 <= n ->
  slice (pre ++ mid ++ post)
        (Z.max 0 (len pre - n))
        (Z.min (len (pre ++ mid ++ post)) (len pre + len mid + n))
  = last_chars (Z.to_nat n) pre ++ mid ++ firstn (Z.to_nat n) post.
Proof.
  intros Hn. unfold slice, clamp_index, last_chars, len.
  rewrite !length_app.
  set (a := length pre). set (m := length mid). set (b := length post).
  assert (E1 : (Z.max 0 (Z.of_nat a - n) <? 0) = false) by (apply Z.ltb_ge; lia).
  assert (E2 : (Z.min (Z.of_nat (a + (m + b))) (Z.of_nat a + Z.of_nat m + n) <? 0) = false)
    by (apply Z.ltb_ge; lia).
  rewrite E1, E2.
  replace (Z.to_nat (Z.min (Z.max 0 (Z.of_nat a - n)) (Z.of_nat (a + (m + b)))))
    with (a - Z.to_nat n)%nat by lia.
  replace (Z.to_nat (Z.min (Z.min (Z.of_nat (a + (m + b))) (Z.of_nat a + Z.of_nat m + n))
                           (Z.of_nat (a + (m + b)))
                     - Z.min (Z.max 0 (Z.of_nat a - n)) (Z.of_nat (a + (m + b)))))
    with ((a - (a - Z.to_nat n)) + (m + Nat.min (Z.to_nat n) b))%nat by lia.
  rewrite skipn_app.
  replace (a - Z.to_nat n - length pre)%nat with 0%nat by (subst a; lia).
  simpl skipn at 2.
  rewrite firstn_app, length_skipn. fold a.
  rewrite (firstn_all2 (n := (a - (a - Z.to_nat n) + (m + Nat.min (Z.to_nat n) b))%nat));
    [|rewrite length_skipn; fold a; lia].
  f_equal.
  replace (a - (a - Z.to_nat n) + (m + Nat.min (Z.to_nat n) b) - (a - (a - Z.to_nat n)))%nat
    with (m + Nat.min (Z.to_nat n) b)%nat by lia.
  rewrite firstn_app. fold m.
  rewrite (firstn_all2 (n := (m + Nat.min (Z.to_nat n) b)%nat)); [|fold m; lia].
  f_equal.
  replace (m + Nat.min (Z.to_nat n) b - m)%nat with (Nat.min (Z.to_nat n) b) by lia.
  subst b. rewrite <- firstn_firstn. now rewrite firstn_all.
Qed.

Lemma py_sum_ones {A : Type} (l : list A) :
  py_sum (map (fun _ => 1) l) = Z.of_nat (length l).
Proof.
  unfold py_sum.
  assert (G : forall acc, fold_left Z.add (map (fun _ : A => 1) l) acc = acc + Z.of_nat (length l)).
  { induction l as [|x l IH]; intros acc; simpl fold_left.
    - simpl. lia.
    - rewrite IH. simpl length. lia. }
  rewrite G. lia.
Qed.

Lemma word_hits_count (words : list str) (text : str) :
  exists n, CountOccurring text words n /\ word_hits words text = Z.of_nat n.
Proof.
  unfold word_hits. rewrite py_sum_ones.
  induction words as [|w words [n [C E]]]; simpl.
  - exists 0%nat. split; [constructor | reflexivity].
  - destruct (contains w text) eqn:Hw.
    + exists (S n). split.
      * apply count_hit; [now apply contains_spec | exact C].
      * simpl length. lia.
    + exists n. split.
      * apply count_miss; [now apply not_contains_spec | exact C].
      * exact E.
Qed.

Lemma CountOccurring_le (text : str) (words : list str) (n : nat) :
  CountOccurring text words n -> (n <= length words)%nat.
Proof. induction 1; simpl; lia. Qed.

Lemma CountOccurring_functional (text : str) (words : list str) (n m : nat) :
  CountOccurring text words n -> CountOccurring text words m -> n = m.
Proof.
  intros H; revert m; induction H; intros m Hm; inversion Hm; subst;
    try reflexivity; try contradiction; auto.
Qed.

End StringFacts.

(** ** Context sentiment *)

Lemma sentiment_of_first_occurrence (text feature pre post : str) :
  FirstOccurrence feature text pre post ->
  analyze_context_sentiment text feature =
    let window := last_chars 50 pre ++ feature ++ firstn 50 post in
    if positive_count window >? negative_count window then positive
    else if negative_count window >? positive_count window then negative
    else neutral.
Proof.
  intros FO.
  destruct (find_from_first feature text 0) as [pre' [post' [FO' Hf]]].
  { destruct FO as [E _]. now exists pre, post. }
  destruct (first_occurrence_unique _ _ _ _ _ _ FO FO') as [<- <-].
  unfold analyze_context_sentiment, find. rewrite Hf.
  replace (0 + len pre =? -1) with false by (symmetry; apply Z.eqb_neq; unfold len; lia).
  destruct FO as [-> _]. cbv zeta.
  replace (0 + len pre - 50) with (len pre - 50) by lia.
  replace (0 + len pre + len feature + 50) with (len pre + len feature + 50) by lia.
  rewrite (slice_window pre feature post 50) by lia.
  reflexivity.
Qed.





(** C10.  The positive (negative) count of a window is the number of
    entries of the positive (negative) word list, with list
    multiplicity, that occur in the window as substrings.  An entry
    counts once however often its word occurs, a word inside a longer
    word counts, and any window containing "worst" has a negative count
    of at least 2. *)
Theorem sentiment_counts_spec (window : str) :
  (exists n, CountOccurring window positive_words n /\
             positive_count window = Z.of_nat n /\ (n <= 9)%nat) /\
  (exists n, CountOccurring window negative_words n /\
             negative_count window = Z.of_nat n /\ (n <= 9)%nat) /\
  (forall pre post, 2 <= negative_count (pre ++ lit "worst" ++ post)) /\
  positive_count (lit "good good good") = 1 /\
  negative_count (lit "badge") = 1 /\
  negative_count (lit "the worst") = 2.
Proof.
  split; [|split; [|split]].
  - destruct (word_hits_count positive_words window) as [n [C E]].
    exists n. repeat split; try assumption. apply (CountOccurring_le _ _ _ C).
  - destruct (word_hits_count negative_words window) as [n [C E]].
    exists n. repeat split; try assumption. apply (CountOccurring_le _ _ _ C).
  - intros pre post.
    assert (W : contains (lit "worst") (pre ++ lit "worst" ++ post) = true)
      by (apply contains_spec; now exists pre, post).
    unfold negative_count, word_hits. rewrite py_sum_ones.
    change negative_words
      with (map lit ["bad"; "terrible"; "awful"; "hate"]%string ++ [lit "worst"] ++
            map lit ["horrible"; "disappointing"; "poor"]%string ++ [lit "worst"]).
    rewrite !filter_app, !length_app.
    assert (S1 : length (filter (fun word => contains word (pre ++ lit "worst" ++ post))
                                [lit "worst"]) = 1%nat)
      by (cbn [filter]; now rewrite W).
    rewrite S1. lia.
  - repeat split; reflexivity.
Qed.

(** ** Feature extraction *)

Lemma str_eqb_eq (s t : str) : str_eqb s t = true <-> s = t.
Proof.
  revert t; induction s as [|c s IH]; intros [|d t]; simpl;
    try (split; [discriminate | discriminate]); try (split; reflexivity).
  rewrite andb_true_iff, Ascii.eqb_eq, IH. split.
  - now intros [-> ->].
  - intros H; injection H as -> ->; now split.
Qed.

Lemma str_eqb_refl (s : str) : str_eqb s s = true.
Proof. now apply str_eqb_eq. Qed.

Lemma str_eqb_neq (s t : str) : str_eqb s t = false <-> s <> t.
Proof.
  rewrite <- str_eqb_eq. destruct (str_eqb s t); split; congruence.
Qed.

Lemma last_read_cons (prev : option ascii) (c : ascii) (pre : str) :
  last_read prev (c :: pre) = last_read (Some c) pre.
Proof.
  unfold last_read. simpl. destruct (rev pre) as [|d r] eqn:E; reflexivity.
Qed.

Lemma match_alt_literal (w : str) (prev : option ascii) (post : str) :
  match_alt (map Lit w) prev (w ++ post) = Some (last_read prev w, post).
Proof.
  revert prev; induction w as [|c w IH]; intros prev; simpl.
  - reflexivity.
  - rewrite Ascii.eqb_refl, IH, last_read_cons. reflexivity.
Qed.

Lemma search_word_from_app (alts : list alternative) (pre rest : str) (prev : option ascii) :
  match_word_here alts (last_read prev pre) rest = true ->
  search_word_from alts prev (pre ++ rest) = true.
Proof.
  revert prev; induction pre as [|c pre IH]; intros prev H.
  - simpl. unfold last_read in H. simpl in H.
    destruct rest; simpl; rewrite H; reflexivity.
  - simpl. rewrite last_read_cons in H. rewrite (IH _ H). apply orb_true_r.
Qed.

Lemma search_word_whole_word (alts : list alternative) (w s : str) :
  In (map Lit w) alts -> WholeWord w s -> search_word alts s = true.
Proof.
  intros Hin [pre [post [-> [Hne [B1 B2]]]]].
  unfold search_word. apply search_word_from_app.
  unfold match_word_here. apply andb_true_iff. split.
  - unfold last_read. destruct (rev pre); exact B1.
  - apply existsb_exists. exists (map Lit w). split; [exact Hin|].
    rewrite match_alt_literal.
    unfold last_read. destruct (rev w) as [|c r] eqn:E.
    + exfalso. apply Hne. apply (f_equal (@rev ascii)) in E.
      now rewrite rev_involutive in E.
    + exact B2.
Qed.

Lemma bigram_step_keeps (features : list str) (bigram label : str) :
  In label features -> In label (bigram_step features bigram).
Proof.
  intros H. unfold bigram_step.
  destruct (existsb _ bigram_terms); [|exact H].
  destruct (_ && _); [|exact H].
  apply in_or_app. now left.
Qed.

Lemma review_features_keeps_patterns (review_lower label : str) :
  In label (pattern_features review_lower) -> In label (review_features review_lower).
Proof.
  unfold review_features.
  generalize (bigrams (split review_lower)) (pattern_features review_lower).
  intros bs; induction bs as [|b bs IH]; intros fs H; simpl.
  - exact H.
  - apply IH. now apply bigram_step_keeps.
Qed.

Lemma listed_word_gets_label (label w review_lower : str) (alts : list alternative) :
  In (label, alts) feature_patterns -> In (map Lit w) alts ->
  WholeWord w review_lower ->
  In label (review_features review_lower).
Proof.
  intros Hp Hw Hs. apply review_features_keeps_patterns.
  unfold pattern_features.
  apply (in_map fst _ (label, alts)).
  apply filter_In. split; [exact Hp|].
  simpl. eapply search_word_whole_word; eassumption.
Qed.

Lemma dict_get_counter_incr (k k' : str) (c : dict Z) :
  dict_get k (counter_incr k' c) =
    if str_eqb k k'
    then Some (match dict_get k c with Some n => n + 1 | None => 1 end)
    else dict_get k c.
Proof.
  induction c as [|[k0 n] c IH]; simpl.
  - reflexivity.
  - destruct (str_eqb k' k0) eqn:E0; simpl.
    + apply str_eqb_eq in E0 as ->.
      destruct (str_eqb k k0) eqn:E1; reflexivity.
    + destruct (str_eqb k k0) eqn:E1.
      * apply str_eqb_eq in E1 as ->.
        destruct (str_eqb k0 k') eqn:E2; [|reflexivity].
        apply str_eqb_eq in E2 as ->. rewrite str_eqb_refl in E0. discriminate.
      * exact IH.
Qed.

Lemma dict_get_fold_counter (k : str) (labels : list str) (c : dict Z) :
  dict_get k (fold_left (fun c k => counter_incr k c) labels c) =
    match dict_get k c with
    | Some n => Some (n + occurrences_of k labels)
    | None => if occurrences_of k labels =? 0 then None
              else Some (occurrences_of k labels)
    end.
Proof.
  revert c; induction labels as [|l labels IH]; intros c; simpl fold_left.
  - unfold occurrences_of, len. simpl. destruct (dict_get k c); [f_equal; lia | reflexivity].
  - rewrite IH, dict_get_counter_incr. unfold occurrences_of, len. simpl filter.
    destruct (str_eqb k l) eqn:E; simpl length.
    + destruct (dict_get k c).
      * f_equal; lia.
      * replace (Z.of_nat (S (length (filter (str_eqb k) labels))) =? 0) with false
          by (symmetry; apply Z.eqb_neq; lia).
        destruct (Z.of_nat (length (filter (str_eqb k) labels)) =? 0) eqn:E0.
        -- apply Z.eqb_eq in E0. f_equal; lia.
        -- f_equal; lia.
    + destruct (dict_get k c); reflexivity.
Qed.

Lemma dict_get_Counter (k : str) (labels : list str) :
  dict_get k (Counter labels) =
    if occurrences_of k labels =? 0 then None else Some (occurrences_of k labels).
Proof. unfold Counter. now rewrite dict_get_fold_counter. Qed.

Lemma occurrences_of_In (k : str) (labels : list str) :
  In k labels -> 1 <= occurrences_of k labels.
Proof.
  intros H. unfold occurrences_of, len.
  assert (In k (filter (str_eqb k) labels)) by (apply filter_In; split; [exact H | apply str_eqb_refl]).
  destruct (filter (str_eqb k) labels); [contradiction | simpl length; lia].
Qed.

Lemma all_features_In (reviews : list cell) (review : cell) (label : str) :
  In review reviews -> isna review = false ->
  In label (review_features (lower (as_str review))) ->
  In label (all_features reviews).
Proof.
  unfold all_features. generalize (@nil str) as acc.
  induction reviews as [|r reviews IH]; intros acc Hin Hna Hl; [contradiction|].
  assert (Keep : forall rs acc', In label acc' ->
            In label (fold_left
              (fun all_features review =>
                 if isna review then all_features
                 else all_features ++ review_features (lower (as_str review))) rs acc')).
  { induction rs as [|r' rs IHrs]; intros acc' H'; simpl; [exact H'|].
    apply IHrs. destruct (isna r'); [exact H' | apply in_or_app; now left]. }
  simpl. destruct Hin as [-> | Hin].
  - rewrite Hna. apply Keep. apply in_or_app. now right.
  - now apply IH.
Qed.

Lemma Delimited_WholeWord (w s : str) (c d : ascii) (mid : str) :
  w = c :: mid -> hd_error (rev w) = Some d -> is_word c = true -> is_word d = true ->
  Delimited w s -> WholeWord w s.
Proof.
  intros Hw Hl Hc Hd [pre [post [-> [B1 B2]]]].
  exists pre, post. split; [reflexivity|]. split; [subst w; discriminate|]. split.
  - unfold word_boundary. rewrite B1. subst w. simpl. now rewrite Hc.
  - unfold word_boundary. rewrite Hl. simpl. now rewrite Hd, B2.
Qed.

Lemma self_named_listed (label : str) :
  In label self_named_labels ->
  exists alts c mid d,
    In (label, alts) feature_patterns /\ In (map Lit label) alts /\
    label = c :: mid /\ hd_error (rev label) = Some d /\
    is_word c = true /\ is_word d = true.
Proof.
  unfold self_named_labels. simpl map. intros H.
  repeat (destruct H as [<- | H];
          [ eexists; eexists; eexists; eexists;
            split; [unfold feature_patterns; repeat first [left; reflexivity | right]|];
            split; [unfold lits; repeat first [left; reflexivity | right]|];
            repeat split; reflexivity
          | ]).
  contradiction.
Qed.

(** C4, as the script has it.  A review in ASCII whose lowercased text
    has "battery" as a whole word, neither preceded nor followed by a
    letter, a digit or an underscore, is given the label "battery" and
    the count table counts it; the same holds of each of the eleven
    categories whose pattern lists the category's own name, that is, of
    all but "usability". *)
Theorem delimited_label_assigned (reviews : list cell) (review : cell) (label : str) :
  In review reviews -> isna review = false ->
  ascii_text (as_str review) = true ->
  In label self_named_labels ->
  Delimited label (lower (as_str review)) ->
  In label (review_features (lower (as_str review))) /\
  exists n, dict_get label (extract_features_from_reviews reviews) = Some n /\ 1 <= n.
Proof.
  intros Hin Hna _ Hl Hd.
  destruct (self_named_listed label Hl) as [alts [c [mid [d [Hp [Hw [Hc [Hlast [Wc Wd]]]]]]]]].
  assert (F : In label (review_features (lower (as_str review)))).
  { eapply listed_word_gets_label; [exact Hp | exact Hw |].
    eapply Delimited_WholeWord; eassumption. }
  split; [exact F|].
  unfold extract_features_from_reviews. rewrite dict_get_Counter.
  pose proof (occurrences_of_In label _ (all_features_In reviews review label Hin Hna F)) as O.
  destruct (occurrences_of label (all_features reviews) =? 0) eqn:E.
  - apply Z.eqb_eq in E. lia.
  - eexists; split; [reflexivity | exact O].
Qed.

Lemma delimited_label_assigned_witness :
  In (lit "battery")
     (review_features (lower (as_str (text_cell "The Battery, sadly, died.")))) /\
  exists n,
    dict_get (lit "battery")
      (extract_features_from_reviews [text_cell "The Battery, sadly, died."]) = Some n /\
    1 <= n.
Proof.
  apply (delimited_label_assigned [text_cell "The Battery, sadly, died."]
           (text_cell "The Battery, sadly, died.") (lit "battery")).
  - left; reflexivity.
  - reflexivity.
  - reflexivity.
  - left; reflexivity.
  - exists (lit "the "), (lit ", sadly, died."). repeat split; reflexivity.
Defined.

(** C4 as stated fails: "batterylife" contains the substring "battery"
    and "usability" contains "usability", yet neither review is given
    the label, and the count table stays empty. *)
Lemma substring_label_counterexample :
  contains (lit "battery") (lower (as_str (text_cell "Batterylife is short"))) = true /\
  str_in (lit "battery")
    (review_features (lower (as_str (text_cell "Batterylife is short")))) = false /\
  extract_features_from_reviews [text_cell "Batterylife is short"] = [] /\
  contains (lit "usability") (lower (as_str (text_cell "Usability matters"))) = true /\
  str_in (lit "usability")
    (review_features (lower (as_str (text_cell "Usability matters")))) = false /\
  extract_features_from_reviews [text_cell "Usability matters"] = [].
Proof. vm_compute. repeat split; reflexivity. Qed.

(** ** Sentiment aggregation *)

Lemma dict_get_set {V : Type} (k k' : str) (v : V) (d : dict V) :
  dict_get k (dict_set k' v d) = if str_eqb k k' then Some v else dict_get k d.
Proof.
  induction d as [|[k0 v0] d IH]; simpl.
  - reflexivity.
  - destruct (str_eqb k' k0) eqn:E0; simpl.
    + apply str_eqb_eq in E0 as ->. destruct (str_eqb k k0); reflexivity.
    + destruct (str_eqb k k0) eqn:E1.
      * apply str_eqb_eq in E1 as ->.
        destruct (str_eqb k0 k') eqn:E2; [|reflexivity].
        apply str_eqb_eq in E2 as ->. rewrite str_eqb_refl in E0. discriminate.
      * exact IH.
Qed.

Lemma bind_Ok {A B : Type} (r : result A) (k : A -> result B) (b : B) :
  bind r k = Ok b -> exists a, r = Ok a /\ k a = Ok b.
Proof. destruct r as [a|e]; simpl; [now exists a | discriminate]. Qed.

Lemma scan_review_Ok (df : DataFrame) (rating_col : option str) (feature : str)
    (acc m : mentions) (item : nat * cell) :
  scan_review df rating_col feature acc item = Ok m ->
  snd m = snd acc ++ map (review_sentiment feature)
                         (filter (mentions_feature feature) [item]) /\
  (length (fst m) + length (snd acc) <= length (snd m) + length (fst acc))%nat /\
  (length (fst acc) <= length (fst m))%nat.
Proof.
  destruct acc as [ratings sentiments], item as [idx review].
  unfold scan_review, mentions_feature. cbn [filter snd fst].
  destruct (isna review); cbn [negb andb].
  - intros H; injection H as <-. cbn. rewrite app_nil_r. repeat split; lia.
  - destruct (contains feature (lower (as_str review))).
    + intros H. apply bind_Ok in H as [ratings' [Hr H]]. injection H as <-.
      cbn [snd fst map]. split; [reflexivity|].
      rewrite length_app. cbn [length].
      destruct rating_col as [rc|].
      * destruct (negb (isna (loc df idx rc))).
        -- destruct (as_float (loc df idx rc)); [|discriminate].
           injection Hr as <-. rewrite length_app. cbn [length]. lia.
        -- injection Hr as <-. lia.
      * injection Hr as <-. lia.
    + intros H; injection H as <-. cbn. rewrite app_nil_r. repeat split; lia.
Qed.

Lemma scan_loop_Ok (df : DataFrame) (rating_col : option str) (feature : str)
    (items : list (nat * cell)) (acc m : mentions) :
  for_each (scan_review df rating_col feature) items acc = Ok m ->
  snd m = snd acc ++ map (review_sentiment feature)
                         (filter (mentions_feature feature) items) /\
  (length (fst m) + length (snd acc) <= length (snd m) + length (fst acc))%nat.
Proof.
  revert acc; induction items as [|item items IH]; intros acc H.
  - simpl in H. injection H as <-. simpl. rewrite app_nil_r. split; [reflexivity | lia].
  - simpl in H. apply bind_Ok in H as [acc' [H1 H2]].
    apply scan_review_Ok in H1 as [S1 [L1 _]].
    apply IH in H2 as [S2 L2].
    split.
    + rewrite S2, S1. rewrite <- app_assoc, <- map_app. f_equal. f_equal.
      cbn [filter]. destruct (mentions_feature feature item); reflexivity.
    + rewrite S1 in L2. rewrite S1 in L1. rewrite length_app in *. lia.
Qed.

Lemma mentioning_filter (df : DataFrame) (review_col feature : str) :
  filter (mentions_feature feature) (dropna_items df review_col) =
  mentioning df review_col feature.
Proof.
  unfold mentioning, dropna_items.
  induction (column_items df review_col) as [|item items IH]; cbn [filter].
  - reflexivity.
  - destruct (isna (snd item)) eqn:E; cbn [negb filter].
    + exact IH.
    + unfold mentions_feature at 1. rewrite E. cbn [negb andb].
      destruct (contains feature (lower (as_str (snd item)))); [f_equal|]; exact IH.
Qed.

Lemma scan_reviews_Ok (df : DataFrame) (review_col : str) (rating_col : option str)
    (feature : str) (ratings : list float) (sentiments : list sentiment) :
  scan_reviews df review_col rating_col feature = Ok (ratings, sentiments) ->
  sentiments = map (review_sentiment feature) (mentioning df review_col feature) /\
  (length ratings <= length sentiments)%nat.
Proof.
  intros H. apply scan_loop_Ok in H as [S L]. simpl in S, L.
  rewrite mentioning_filter in S. split; [exact S | lia].
Qed.

(** Without a rating column the scan cannot raise. *)
Lemma scan_reviews_unrated (df : DataFrame) (review_col feature : str) :
  exists sentiments, scan_reviews df review_col None feature = Ok ([], sentiments).
Proof.
  unfold scan_reviews. generalize (@nil sentiment) as acc.
  induction (dropna_items df review_col) as [|[idx review] items IH]; intros acc; simpl.
  - now exists acc.
  - destruct (isna review); [apply IH|].
    destruct (contains feature (lower (as_str review))); simpl; apply IH.
Qed.

(** Without a rating column the analysis returns a record table. *)
Lemma analysis_unrated (df : DataFrame) (review_col : str) (features : dict Z) :
  exists fa, analyze_feature_sentiment df review_col None features = Ok fa.
Proof.
  unfold analyze_feature_sentiment. generalize (@nil (str * FeatureRecord)) as acc.
  induction (most_common 20 features) as [|[f c] fcs IH]; intros acc; simpl.
  - now exists acc.
  - destruct (scan_reviews_unrated df review_col f) as [sents ->]. simpl. apply IH.
Qed.

Lemma analysis_records (df : DataFrame) (review_col : str) (rating_col : option str)
    (features : dict Z) (fa : dict FeatureRecord) (feature : str) (r : FeatureRecord) :
  analyze_feature_sentiment df review_col rating_col features = Ok fa ->
  dict_get feature fa = Some r ->
  exists count m,
    In (feature, count) (most_common 20 features) /\
    scan_reviews df review_col rating_col feature = Ok m /\
    r = feature_record count m.
Proof.
  unfold analyze_feature_sentiment.
  assert (G : forall fcs acc fa',
             for_each (analyze_feature df review_col rating_col) fcs acc = Ok fa' ->
             forall r', dict_get feature fa' = Some r' ->
               dict_get feature acc = Some r' \/
               exists count m,
                 In (feature, count) fcs /\
                 scan_reviews df review_col rating_col feature = Ok m /\
                 r' = feature_record count m).
  { induction fcs as [|[f c] fcs IH]; intros acc fa' H r' Hr.
    - simpl in H. injection H as <-. now left.
    - simpl in H. apply bind_Ok in H as [acc' [H1 H2]].
      apply bind_Ok in H1 as [m [Hm H1]]. injection H1 as <-.
      destruct (IH _ _ H2 _ Hr) as [Hacc | [count [m' [Hin [Hs Hrec]]]]].
      + rewrite dict_get_set in Hacc. destruct (str_eqb feature f) eqn:E.
        * apply str_eqb_eq in E as ->. injection Hacc as <-.
          right. exists c, m. repeat split; [now left | exact Hm].
        * now left.
      + right. exists count, m'. repeat split; [now right | exact Hs | exact Hrec]. }
  intros H Hr. destruct (G _ _ _ H _ Hr) as [Hnil | Hex]; [discriminate | exact Hex].
Qed.

(** C1, as the script has it.  A feature of the top 20 that no review
    mentions gets a record with average rating 0, no rated mention,
    positive ratio 0, negative ratio 0 and neutral ratio 1, the neutral
    ratio being one minus the other two. *)
Theorem no_mentions_record (df : DataFrame) (review_col : str) (rating_col : option str)
    (features : dict Z) (fa : dict FeatureRecord) (feature : str) (r : FeatureRecord) :
  analyze_feature_sentiment df review_col rating_col features = Ok fa ->
  dict_get feature fa = Some r ->
  mentioning df review_col feature = [] ->
  avg_rating r = 0%float /\ total_mentions r = 0 /\
  positive_ratio r = 0%float /\ negative_ratio r = 0%float /\
  neutral_ratio r = 1%float.
Proof.
  intros H Hr Hm.
  destruct (analysis_records _ _ _ _ _ _ _ H Hr) as [count [[ratings sentiments] [_ [Hs ->]]]].
  apply scan_reviews_Ok in Hs as [-> L]. rewrite Hm in *. simpl in L.
  destruct ratings; [|simpl in L; lia].
  repeat split; reflexivity.
Qed.

Lemma no_mentions_record_witness :
  avg_rating {| count := 1; avg_rating := 0; positive_ratio := 0; negative_ratio := 0;
                neutral_ratio := 1; total_mentions := 0 |} = 0%float /\
  total_mentions {| count := 1; avg_rating := 0; positive_ratio := 0; negative_ratio := 0;
                    neutral_ratio := 1; total_mentions := 0 |} = 0 /\
  positive_ratio {| count := 1; avg_rating := 0; positive_ratio := 0; negative_ratio := 0;
                    neutral_ratio := 1; total_mentions := 0 |} = 0%float /\
  negative_ratio {| count := 1; avg_rating := 0; positive_ratio := 0; negative_ratio := 0;
                    neutral_ratio := 1; total_mentions := 0 |} = 0%float /\
  neutral_ratio {| count := 1; avg_rating := 0; positive_ratio := 0; negative_ratio := 0;
                   neutral_ratio := 1; total_mentions := 0 |} = 1%float.
Proof.
  apply (no_mentions_record screen_review (lit "review") None
           (extract_features_from_reviews (map snd (dropna_items screen_review (lit "review"))))
           [(lit "display",
             {| count := 1; avg_rating := 0; positive_ratio := 0; negative_ratio := 0;
                neutral_ratio := 1; total_mentions := 0 |})]
           (lit "display")); reflexivity.
Defined.

(** C1 as stated fails: the review "Nice screen" is labelled "display"
    by the fixed pattern, no review contains "display", and the record
    has neutral ratio 1, not 0. *)
Lemma no_mentions_counterexample :
  mentioning screen_review (lit "review") (lit "display") = [] /\
  exists r,
    analyze_feature_sentiment screen_review (lit "review") None
      (extract_features_from_reviews (map snd (dropna_items screen_review (lit "review"))))
    = Ok [(lit "display", r)] /\
    positive_ratio r = 0%float /\ negative_ratio r = 0%float /\
    neutral_ratio r = 1%float /\
    PrimFloat.eqb (neutral_ratio r) 0 = false.
Proof.
  split; [reflexivity|].
  eexists. split; [reflexivity|]. repeat split; reflexivity.
Qed.

Lemma count_sentiment_partition (xs : list sentiment) :
  count_sentiment positive xs + count_sentiment negative xs + count_sentiment neutral xs
  = len xs.
Proof.
  unfold count_sentiment, len.
  induction xs as [|x xs IH]; [reflexivity|].
  destruct x; cbn [filter sentiment_eqb length]; lia.
Qed.

Lemma exact_ratios (xs : list sentiment) :
  xs <> [] ->
  let '(p, q, n) := sentiment_ratios Q_arith xs in
  (p + q + n == 1)%Q /\
  (p == inject_Z (count_sentiment positive xs) / inject_Z (len xs))%Q /\
  (q == inject_Z (count_sentiment negative xs) / inject_Z (len xs))%Q /\
  (n == inject_Z (count_sentiment neutral xs) / inject_Z (len xs))%Q.
Proof.
  intros Hne. destruct xs as [|x xs]; [congruence|].
  unfold sentiment_ratios. cbn [Q_arith of_int sub div].
  set (l := x :: xs).
  pose proof (count_sentiment_partition l) as P.
  assert (L : ~ (inject_Z (len l) == 0)%Q).
  { unfold len, l. unfold Qeq. cbn [inject_Z Qnum Qden length]. lia. }
  set (a := count_sentiment positive l) in *.
  set (b := count_sentiment negative l) in *.
  set (c := count_sentiment neutral l) in *.
  replace (len l) with (a + b + c) in * by lia.
  rewrite !inject_Z_plus in *.
  repeat split; try reflexivity; field; exact L.
Qed.

Lemma ratio_sums_checked : ratio_sums_near_one 100 = true.
Proof. vm_compute. reflexivity. Qed.

Lemma ratio_sums_sound (bound a b n : nat) :
  ratio_sums_near_one bound = true ->
  (1 <= n <= bound)%nat -> (a + b <= n)%nat -> near_one (float_ratio_sum a b n) = true.
Proof.
  unfold ratio_sums_near_one. intros C Hn Hab.
  rewrite forallb_forall in C.
  assert (Hin : In n (seq 1 bound)) by (apply in_seq; lia).
  specialize (C n Hin). rewrite forallb_forall in C.
  assert (Ha : In a (seq 0 (n + 1))) by (apply in_seq; lia).
  specialize (C a Ha). rewrite forallb_forall in C.
  apply C. apply in_seq. lia.
Qed.

Lemma float_ratio_sum_near_one (a b n : nat) :
  (1 <= n <= 100)%nat -> (a + b <= n)%nat -> near_one (float_ratio_sum a b n) = true.
Proof. exact (ratio_sums_sound 100 a b n ratio_sums_checked). Qed.

Lemma count_sentiment_nat (xs : list sentiment) :
  (length (filter (sentiment_eqb positive) xs) + length (filter (sentiment_eqb negative) xs)
   <= length xs)%nat.
Proof. pose proof (count_sentiment_partition xs) as P. unfold count_sentiment, len in P. lia. Qed.

(** C2, as the script has it.  The record of a feature with at least one
    classified mention stores the binary64 quotients count/len for the
    positive and the negative class, and one minus the two for the
    neutral class.  Taken without rounding, over the rationals, these
    three ratios sum to exactly 1 and the neutral one is the share of
    neutral classifications; in binary64, for up to 100 classified
    mentions, their sum is 1 or one of the two floats next to 1. *)
Theorem ratios_sum_to_one (df : DataFrame) (review_col : str) (rating_col : option str)
    (features : dict Z) (fa : dict FeatureRecord) (feature : str) (r : FeatureRecord)
    (ratings : list float) (sentiments : list sentiment) :
  analyze_feature_sentiment df review_col rating_col features = Ok fa ->
  dict_get feature fa = Some r ->
  scan_reviews df review_col rating_col feature = Ok (ratings, sentiments) ->
  sentiments <> [] ->
  positive_ratio r =
    PrimFloat.div (float_of_Z (count_sentiment positive sentiments))
                  (float_of_Z (len sentiments)) /\
  negative_ratio r =
    PrimFloat.div (float_of_Z (count_sentiment negative sentiments))
                  (float_of_Z (len sentiments)) /\
  neutral_ratio r = PrimFloat.sub (PrimFloat.sub 1 (positive_ratio r)) (negative_ratio r) /\
  (let '(p, q, n) := sentiment_ratios Q_arith sentiments in
   (p + q + n == 1)%Q /\
   (n == inject_Z (count_sentiment neutral sentiments) / inject_Z (len sentiments))%Q) /\
  (len sentiments <= 100 ->
   near_one (PrimFloat.add (PrimFloat.add (positive_ratio r) (negative_ratio r))
                           (neutral_ratio r)) = true).
Proof.
  intros H Hr Hs Hne.
  destruct (analysis_records _ _ _ _ _ _ _ H Hr) as [count [m [_ [Hs' ->]]]].
  rewrite Hs in Hs'. injection Hs' as <-.
  pose proof (exact_ratios sentiments Hne) as E.
  pose proof (count_sentiment_nat sentiments) as N.
  destruct sentiments as [|x xs]; [congruence|].
  split; [reflexivity|]. split; [reflexivity|]. split; [reflexivity|]. split.
  - destruct (sentiment_ratios Q_arith (x :: xs)) as [[p q] n].
    destruct E as [E1 [_ [_ E4]]]. split; assumption.
  - intros L.
    apply (float_ratio_sum_near_one
             (length (filter (sentiment_eqb positive) (x :: xs)))
             (length (filter (sentiment_eqb negative) (x :: xs)))
             (length (x :: xs))); [|exact N].
    unfold len in L. simpl length in *. lia.
Qed.

Lemma ratios_sum_to_one_witness :
  positive_ratio (feature_record 7 ([], seven_sentiments)) =
    PrimFloat.div (float_of_Z (count_sentiment positive seven_sentiments))
                  (float_of_Z (len seven_sentiments)) /\
  negative_ratio (feature_record 7 ([], seven_sentiments)) =
    PrimFloat.div (float_of_Z (count_sentiment negative seven_sentiments))
                  (float_of_Z (len seven_sentiments)) /\
  neutral_ratio (feature_record 7 ([], seven_sentiments)) =
    PrimFloat.sub (PrimFloat.sub 1 (positive_ratio (feature_record 7 ([], seven_sentiments))))
                  (negative_ratio (feature_record 7 ([], seven_sentiments))) /\
  (let '(p, q, n) := sentiment_ratios Q_arith seven_sentiments in
   (p + q + n == 1)%Q /\
   (n == inject_Z (count_sentiment neutral seven_sentiments)
         / inject_Z (len seven_sentiments))%Q) /\
  (len seven_sentiments <= 100 ->
   near_one (PrimFloat.add
               (PrimFloat.add (positive_ratio (feature_record 7 ([], seven_sentiments)))
                              (negative_ratio (feature_record 7 ([], seven_sentiments))))
               (neutral_ratio (feature_record 7 ([], seven_sentiments)))) = true).
Proof.
  apply (ratios_sum_to_one seven_reviews (lit "review") None
           (extract_features_from_reviews (map snd (dropna_items seven_reviews (lit "review"))))
           [(lit "camera", feature_record 7 ([], seven_sentiments))]
           (lit "camera") (feature_record 7 ([], seven_sentiments)) [] seven_sentiments).
  - reflexivity.
  - reflexivity.
  - reflexivity.
  - discriminate.
Defined.

(** C2 as stated fails in binary64: with three positive, two negative
    and two neutral classifications out of seven, the three stored
    ratios add up to the float just below 1. *)
Lemma ratios_sum_counterexample :
  exists r,
    scan_reviews seven_reviews (lit "review") None (lit "camera") = Ok ([], seven_sentiments) /\
    analyze_feature_sentiment seven_reviews (lit "review") None
      (extract_features_from_reviews (map snd (dropna_items seven_reviews (lit "review"))))
    = Ok [(lit "camera", r)] /\
    PrimFloat.add (PrimFloat.add (positive_ratio r) (negative_ratio r)) (neutral_ratio r)
    = 0x1.fffffffffffffp-1%float /\
    PrimFloat.eqb
      (PrimFloat.add (PrimFloat.add (positive_ratio r) (negative_ratio r)) (neutral_ratio r))
      1 = false.
Proof.
  eexists. split; [reflexivity|]. split; [reflexivity|]. split; reflexivity.
Qed.

(** C6, as the script has it.  Each review that mentions the feature
    contributes exactly one classification, that of the window around
    the first occurrence, however often the feature occurs in it: the
    classifications of a feature are those of its mentioning reviews, in
    row order, and there are as many of them as such reviews. *)
Theorem one_classification_per_review (df : DataFrame) (review_col : str)
    (rating_col : option str) (feature : str)
    (ratings : list float) (sentiments : list sentiment) :
  scan_reviews df review_col rating_col feature = Ok (ratings, sentiments) ->
  sentiments = map (review_sentiment feature) (mentioning df review_col feature) /\
  len sentiments = len (mentioning df review_col feature).
Proof.
  intros H. apply scan_reviews_Ok in H as [-> _].
  split; [reflexivity|]. unfold len. now rewrite length_map.
Qed.

Lemma one_classification_per_review_witness :
  [neutral] = map (review_sentiment (lit "camera"))
                  (mentioning twice_review (lit "review") (lit "camera")) /\
  len [neutral] = len (mentioning twice_review (lit "review") (lit "camera")).
Proof.
  apply (one_classification_per_review twice_review (lit "review") None (lit "camera")
           [] [neutral]).
  reflexivity.
Defined.

(** C6 as stated fails: the review "Camera, camera!" has the feature at
    two offsets and contributes one classification. *)
Lemma classification_per_occurrence_counterexample :
  occurrence_count (lit "camera") (lower (lit "Camera, camera!")) = 2%nat /\
  scan_reviews twice_review (lit "review") None (lit "camera") = Ok ([], [neutral]) /\
  len [neutral] = 1.
Proof. repeat split; reflexivity. Qed.

(** C5, as the script has it.  On the five sample rows the text column
    is "review", the rating column is "rating", and 15 labels are
    extracted, so all are analysed.  "camera" is in the reviews rated 5
    and 4, which gives it the average 4.5; "battery" is in the reviews
    rated 5 and 2, which gives it the average 3.5. *)
Theorem sample_data_ratings :
  matching_columns review_keywords (columns sample_data) = [lit "review"] /\
  hd_error (matching_columns rating_keywords (columns sample_data)) = Some (lit "rating") /\
  len sample_features = 15 /\
  scan_reviews sample_data (lit "review") (Some (lit "rating")) (lit "camera")
    = Ok ([5%float; 4%float], [positive; positive]) /\
  scan_reviews sample_data (lit "review") (Some (lit "rating")) (lit "battery")
    = Ok ([5%float; 2%float], [positive; neutral]) /\
  exists fa camera battery,
    analyze_feature_sentiment sample_data (lit "review") (Some (lit "rating")) sample_features
      = Ok fa /\
    dict_get (lit "camera") fa = Some camera /\
    dict_get (lit "battery") fa = Some battery /\
    avg_rating camera = 4.5%float /\ total_mentions camera = 2 /\
    avg_rating battery = 3.5%float /\ total_mentions battery = 2.
Proof.
  split; [reflexivity|]. split; [reflexivity|]. split; [reflexivity|].
  split; [reflexivity|]. split; [reflexivity|].
  eexists. eexists. eexists.
  split; [vm_compute; reflexivity|].
  split; [vm_compute; reflexivity|].
  split; [vm_compute; reflexivity|].
  repeat split; reflexivity.
Qed.

(** C5 as stated fails for "camera": the review rated 3 does not contain
    "camera", the ratings collected are 5 and 4, and their average is
    not 4.0. *)
Lemma sample_camera_counterexample :
  contains (lit "camera")
    (lower (lit "Poor audio quality but good screen display. Price is reasonable.")) = false /\
  scan_reviews sample_data (lit "review") (Some (lit "rating")) (lit "camera")
    = Ok ([5%float; 4%float], [positive; positive]) /\
  avg_rating (feature_record 2 ([5%float; 4%float], [positive; positive])) = 4.5%float /\
  PrimFloat.eqb (avg_rating (feature_record 2 ([5%float; 4%float], [positive; positive]))) 4
    = false.
Proof. repeat split; reflexivity. Qed.

(** ** Column selection *)

Lemma filter_head_split {A : Type} (f : A -> bool) (l : list A) (x : A) (rest : list A) :
  filter f l = x :: rest ->
  exists pre post,
    l = pre ++ x :: post /\ f x = true /\
    (forall y, In y pre -> f y = false) /\ rest = filter f post.
Proof.
  induction l as [|a l IH]; simpl; [discriminate|].
  destruct (f a) eqn:E.
  - intros H; injection H as -> <-. exists [], l. repeat split; [exact E | contradiction].
  - intros H. destruct (IH H) as [pre [post [-> [Hx [Hpre Hrest]]]]].
    exists (a :: pre), post. repeat split; try assumption.
    intros y [<- | Hy]; [exact E | now apply Hpre].
Qed.

Lemma filter_first_match {A : Type} (f : A -> bool) (pre post : list A) (x : A) :
  (forall y, In y pre -> f y = false) -> f x = true ->
  filter f (pre ++ x :: post) = x :: filter f post.
Proof.
  intros Hpre Hx. induction pre as [|a pre IH]; simpl.
  - now rewrite Hx.
  - rewrite (Hpre a (or_introl eq_refl)). apply IH.
    intros y Hy. apply Hpre. now right.
Qed.

Lemma filter_none {A : Type} (f : A -> bool) (l : list A) :
  (forall y, In y l -> f y = false) -> filter f l = [].
Proof.
  induction l as [|a l IH]; intros H; simpl; [reflexivity|].
  rewrite (H a (or_introl eq_refl)). apply IH. intros y Hy. apply H. now right.
Qed.

Lemma lower_char_letter (k c : ascii) :
  (97 <= nat_of_ascii k <= 122)%nat ->
  lower_char c = k <-> SameLetter k c.
Proof.
  intros Hk. unfold lower_char, is_upper, SameLetter.
  destruct ((65 <=? nat_of_ascii c)%nat && (nat_of_ascii c <=? 90)%nat) eqn:U.
  - apply andb_true_iff in U. destruct U as [U1 U2].
    apply Nat.leb_le in U1. apply Nat.leb_le in U2.
    split.
    + intros E. right. split; [exact Hk|].
      rewrite <- E, nat_ascii_embedding; lia.
    + intros [E | [_ E]].
      * subst c. lia.
      * rewrite E. apply ascii_nat_embedding.
  - split.
    + intros E. now left.
    + intros [E | [_ E]]; [exact E|].
      apply andb_false_iff in U.
      destruct U as [U | U]; apply Nat.leb_gt in U; lia.
Qed.

Lemma lower_spells (word mid : str) :
  Forall (fun k => (97 <= nat_of_ascii k <= 122)%nat) word ->
  lower mid = word <-> Forall2 SameLetter word mid.
Proof.
  intros Hword. revert mid.
  induction Hword as [|k word Hk Hword IH]; intros mid.
  - split.
    + intros E. destruct mid; [constructor | discriminate].
    + intros F. inversion F. reflexivity.
  - split.
    + intros E. destruct mid as [|c mid]; [discriminate|].
      cbn [lower map] in E. injection E as E1 E2.
      constructor; [now apply lower_char_letter | now apply IH].
    + intros F. inversion F as [|k' c word' mid' F1 F2]; subst.
      cbn [lower map]. f_equal; [now apply lower_char_letter | now apply IH].
Qed.

Lemma spelled_in_lower (word : string) (col : str) :
  Forall (fun k => (97 <= nat_of_ascii k <= 122)%nat) (lit word) ->
  contains (lit word) (lower col) = true <-> SpelledIn word col.
Proof.
  intros Hword. rewrite contains_spec. unfold Occurs, SpelledIn, lower. split.
  - intros [pre' [post' E]].
    apply map_eq_app in E. destruct E as [pre [rest [E [Epre Erest]]]].
    apply map_eq_app in Erest. destruct Erest as [mid [post [E' [Emid Epost]]]].
    subst col rest. exists pre, mid, post. split; [reflexivity|].
    now apply lower_spells.
  - intros [pre [mid [post [E F]]]]. subst col.
    exists (map lower_char pre), (map lower_char post).
    rewrite !map_app. f_equal. f_equal.
    now apply lower_spells.
Qed.

Lemma review_keyword_test (col : str) :
  existsb (fun keyword => contains keyword (lower col)) review_keywords = true
  <-> NamesReviewText col.
Proof.
  assert (L : forall word,
             In word ["review"; "text"; "comment"; "feedback"]%string ->
             Forall (fun k => (97 <= nat_of_ascii k <= 122)%nat) (lit word)).
  { intros word Hin. cbn [In] in Hin.
    destruct Hin as [E | [E | [E | [E | []]]]]; subst word;
      repeat constructor; cbn; lia. }
  unfold NamesReviewText, review_keywords. cbn [existsb map].
  rewrite orb_false_r, !orb_true_iff.
  rewrite <- !spelled_in_lower by (apply L; cbn [In]; tauto).
  tauto.
Qed.

Lemma review_keyword_test_false (col : str) :
  ~ NamesReviewText col ->
  existsb (fun keyword => contains keyword (lower col)) review_keywords = false.
Proof.
  intros H. destruct (existsb _ review_keywords) eqn:E; [|reflexivity].
  exfalso. apply H. now apply review_keyword_test.
Qed.

(** C7.  The text column is the first column, in table order, whose
    name spells one of "review", "text", "comment", "feedback", in
    capitals or small letters: the run announces it and extracts the
    features from it.  When no column does, the run prints the start,
    load and missing-column messages, returns without an exception, and
    leaves no figure and no file behind. *)
Theorem text_column_selection (lib : plotting) (improvement : improvement_section)
    (csv_file_path : str) (df : DataFrame) (now : Timestamp) :
  (forall pre col post,
     columns df = pre ++ col :: post ->
     (forall c, In c pre -> ~ NamesReviewText c) ->
     NamesReviewText col ->
     exists rest,
       fst (analyze_product_features lib improvement csv_file_path (Loaded df) now) =
         [ Print MsgStart;
           Print (MsgLoaded (len (rows df)) csv_file_path);
           Print (MsgUsingColumn col);
           Print MsgExtracting;
           Print (MsgExtracted
                    (len (extract_features_from_reviews (map snd (dropna_items df col))))) ]
         ++ rest) /\
  ((forall c, In c (columns df) -> ~ NamesReviewText c) ->
     analyze_product_features lib improvement csv_file_path (Loaded df) now =
       ([ Print MsgStart;
          Print (MsgLoaded (len (rows df)) csv_file_path);
          Print MsgNoReviewColumn ],
        Returned) /\
     filter is_output
       (fst (analyze_product_features lib improvement csv_file_path (Loaded df) now)) = []).
Proof.
  split.
  - intros pre col post Hcols Hpre Hcol.
    unfold analyze_product_features, matching_columns at 1.
    rewrite Hcols, filter_first_match;
      [| intros y Hy; apply review_keyword_test_false; now apply Hpre
       | now apply review_keyword_test ].
    rewrite <- Hcols.
    destruct (analyze_feature_sentiment df col _ _) as [fa | e].
    + destruct (create_feature_visualizations lib fa) as [drawn [e|]];
        cbn [fst app]; eexists; reflexivity.
    + cbn [fst app]. eexists; reflexivity.
  - intros Hnone.
    assert (E : analyze_product_features lib improvement csv_file_path (Loaded df) now =
                ([ Print MsgStart; Print (MsgLoaded (len (rows df)) csv_file_path);
                   Print MsgNoReviewColumn ], Returned)).
    { unfold analyze_product_features, matching_columns at 1.
      rewrite filter_none; [reflexivity|].
      intros y Hy. apply review_keyword_test_false. now apply Hnone. }
    split; [exact E|]. rewrite E. reflexivity.
Qed.

Lemma text_column_selection_witness :
  (exists rest,
     fst (analyze_product_features quiet_plotting (fun _ => []) (lit "reviews.csv")
            (Loaded two_text_columns) noon) =
       [ Print MsgStart;
         Print (MsgLoaded 1 (lit "reviews.csv"));
         Print (MsgUsingColumn (lit "Customer_FEEDBACK"));
         Print MsgExtracting;
         Print (MsgExtracted 1) ] ++ rest) /\
  analyze_product_features quiet_plotting (fun _ => []) (lit "reviews.csv")
    (Loaded no_text_column) noon =
    ([ Print MsgStart;
       Print (MsgLoaded 1 (lit "reviews.csv"));
       Print MsgNoReviewColumn ],
     Returned) /\
  filter is_output
    (fst (analyze_product_features quiet_plotting (fun _ => []) (lit "reviews.csv")
            (Loaded no_text_column) noon)) = [].
Proof.
  split.
  - apply (proj1 (text_column_selection quiet_plotting (fun _ => []) (lit "reviews.csv")
                    two_text_columns noon)
             [lit "id"] (lit "Customer_FEEDBACK") [lit "review"]).
    + reflexivity.
    + intros c Hc H. apply review_keyword_test in H.
      simpl in Hc. destruct Hc as [<- | []]. vm_compute in H. discriminate H.
    + apply review_keyword_test. vm_compute. reflexivity.
  - apply (proj2 (text_column_selection quiet_plotting (fun _ => []) (lit "reviews.csv")
                    no_text_column noon)).
    intros c Hc H. apply review_keyword_test in H.
    simpl in Hc. destruct Hc as [<- | [<- | []]]; vm_compute in H; discriminate H.
Defined.

(** ** Sorting *)

Section SortedFacts.
Context {A K : Type} (lt : K -> K -> bool) (key : A -> K).
Hypothesis lt_trans : forall a b c, lt a b = true -> lt b c = true -> lt a c = true.
Hypothesis lt_asym : forall a b, lt a b = true -> lt b a = false.

(** [a] may come before [b] in ascending order: [b] is not less. *)
Let asc (a b : A) : Prop := lt (key b) (key a) = false.
Let desc (a b : A) : Prop := lt (key a) (key b) = false.

Lemma insert_sorted_perm (x : A) (l : list A) :
  Permutation (insert_sorted lt key x l) (x :: l).
Proof.
  induction l as [|y l IH]; simpl.
  - apply Permutation_refl.
  - destruct (lt (key x) (key y)).
    + apply Permutation_refl.
    + eapply Permutation_trans; [apply perm_skip, IH | apply perm_swap].
Qed.

Lemma sort_stable_perm (l : list A) : Permutation (sort_stable lt key l) l.
Proof.
  unfold sort_stable.
  assert (G : forall acc, Permutation
              (fold_left (fun acc x => insert_sorted lt key x acc) l acc) (acc ++ l)).
  { induction l as [|x l IH]; intros acc; simpl.
    - rewrite app_nil_r. apply Permutation_refl.
    - eapply Permutation_trans; [apply IH|].
      eapply Permutation_trans; [apply Permutation_app_tail, insert_sorted_perm|].
      simpl. apply Permutation_middle. }
  apply (G []).
Qed.

Lemma sorted_perm (reverse : bool) (l : list A) : Permutation (sorted lt key reverse l) l.
Proof.
  unfold sorted. destruct reverse; [|apply sort_stable_perm].
  eapply Permutation_trans; [apply Permutation_sym, Permutation_rev|].
  eapply Permutation_trans; [apply sort_stable_perm|].
  apply Permutation_sym, Permutation_rev.
Qed.

Lemma insert_sorted_ascending (x : A) (l : list A) :
  StronglySorted asc l -> StronglySorted asc (insert_sorted lt key x l).
Proof.
  induction 1 as [|y l Hs IH Hy]; simpl.
  - constructor; [constructor | constructor].
  - destruct (lt (key x) (key y)) eqn:E.
    + constructor; [constructor; assumption|].
      constructor; [unfold asc; now apply lt_asym|].
      rewrite Forall_forall in *. intros z Hz. unfold asc.
      destruct (lt (key z) (key x)) eqn:Ez; [|reflexivity].
      pose proof (lt_trans _ _ _ Ez E) as C. specialize (Hy z Hz). unfold asc in Hy. congruence.
    + constructor; [exact IH|].
      rewrite Forall_forall in *. intros z Hz.
      apply (Permutation_in _ (insert_sorted_perm x l)) in Hz.
      destruct Hz as [<- | Hz]; [exact E | now apply Hy].
Qed.

Lemma sort_stable_ascending (l : list A) : StronglySorted asc (sort_stable lt key l).
Proof.
  unfold sort_stable.
  assert (G : forall acc, StronglySorted asc acc ->
              StronglySorted asc (fold_left (fun acc x => insert_sorted lt key x acc) l acc)).
  { induction l as [|x l IH]; intros acc H; simpl; [exact H|].
    apply IH. now apply insert_sorted_ascending. }
  apply G. constructor.
Qed.

Lemma StronglySorted_app_inv (R : A -> A -> Prop) (l1 l2 : list A) :
  StronglySorted R (l1 ++ l2) ->
  StronglySorted R l1 /\ StronglySorted R l2 /\
  forall a b, In a l1 -> In b l2 -> R a b.
Proof.
  induction l1 as [|x l1 IH]; simpl; intros H.
  - repeat split; [constructor | exact H | contradiction].
  - inversion H as [|? ? Hs Hx]; subst.
    destruct (IH Hs) as [S1 [S2 C]].
    rewrite Forall_forall in Hx.
    repeat split.
    + constructor; [exact S1|]. rewrite Forall_forall. intros z Hz. apply Hx.
      apply in_or_app. now left.
    + exact S2.
    + intros a b [<- | Ha] Hb; [apply Hx, in_or_app; now right | now apply C].
Qed.

Lemma StronglySorted_rev (R : A -> A -> Prop) (l : list A) :
  StronglySorted R l -> StronglySorted (fun a b => R b a) (rev l).
Proof.
  induction 1 as [|x l Hs IH Hx]; simpl; [constructor|].
  rewrite Forall_forall in Hx.
  assert (G : forall l', StronglySorted (fun a b => R b a) l' ->
              (forall z, In z l' -> R x z) ->
              StronglySorted (fun a b => R b a) (l' ++ [x])).
  { induction l' as [|y l' IH']; simpl; intros S Hall.
    - constructor; [constructor | constructor].
    - inversion S as [|? ? S' Hy]; subst. constructor.
      + apply IH'; [exact S' | intros z Hz; apply Hall; now right].
      + rewrite Forall_forall in *. intros z Hz. apply in_app_or in Hz as [Hz | [<- | []]].
        * now apply Hy.
        * apply Hall. now left. }
  apply G; [exact IH|]. intros z Hz. apply Hx. now apply in_rev.
Qed.

Lemma sorted_descending (l : list A) : StronglySorted desc (sorted lt key true l).
Proof.
  unfold sorted.
  apply (StronglySorted_rev asc). apply sort_stable_ascending.
Qed.

End SortedFacts.

(** Case analysis on the outcome of the exponent and mantissa
    comparisons behind a float comparison. *)
Ltac compare_cases :=
  rewrite ?Pos.compare_cont_spec; unfold Pos.switch_Eq;
  repeat match goal with
         | |- context [Z.compare ?x ?y] => destruct (Z.compare_spec x y)
         | |- context [Pos.compare ?x ?y] => destruct (Pos.compare_spec x y)
         end;
  simpl; try discriminate; try reflexivity; intros; try lia.

Lemma float_ltb_trans (a b c : float) :
  PrimFloat.ltb a b = true -> PrimFloat.ltb b c = true -> PrimFloat.ltb a c = true.
Proof.
  rewrite !ltb_spec. unfold SFltb, SFcompare.
  destruct (Prim2SF a) as [[]|[]| |[] ma ea], (Prim2SF b) as [[]|[]| |[] mb eb],
           (Prim2SF c) as [[]|[]| |[] mc ec];
    try discriminate; try reflexivity; compare_cases.
Qed.

Lemma float_ltb_asym (a b : float) :
  PrimFloat.ltb a b = true -> PrimFloat.ltb b a = false.
Proof.
  rewrite !ltb_spec. unfold SFltb, SFcompare.
  destruct (Prim2SF a) as [[]|[]| |[] ma ea], (Prim2SF b) as [[]|[]| |[] mb eb];
    try discriminate; try reflexivity; compare_cases.
Qed.

Lemma by_rating_descending (fa : dict FeatureRecord) : RatedDescending (by_rating fa).
Proof.
  unfold RatedDescending, by_rating.
  apply (sorted_descending PrimFloat.ltb (fun x : item => avg_rating (snd x))
           float_ltb_trans float_ltb_asym).
Qed.

(** ** The report *)
















(** * Further properties of the pipeline *)

(** ** The count table *)

Lemma str_in_spec (x : str) (xs : list str) : str_in x xs = true <-> In x xs.
Proof.
  unfold str_in. rewrite existsb_exists. split.
  - intros [y [Hy E]]. apply str_eqb_eq in E. now subst.
  - intros H. exists x. split; [exact H | apply str_eqb_refl].
Qed.

Lemma str_in_false (x : str) (xs : list str) : str_in x xs = false <-> ~ In x xs.
Proof. rewrite <- str_in_spec. destruct (str_in x xs); split; congruence. Qed.

Lemma distinct_spec (l : list str) : distinct l = true <-> NoDup l.
Proof.
  induction l as [|x l IH]; simpl.
  - split; [constructor | reflexivity].
  - rewrite andb_true_iff, negb_true_iff, str_in_false, IH. split.
    + intros [H1 H2]. now constructor.
    + intros H. inversion H; subst. now split.
Qed.

Lemma selected_keys_distinct {V : Type} (keep : str * V -> bool) (d : list (str * V)) :
  NoDup (map fst d) -> NoDup (map fst (filter keep d)).
Proof.
  intros N. induction d as [|[k v] d IH]; [constructor|].
  inversion N as [|? ? Hk Hd]; subst. cbn [filter].
  destruct (keep (k, v)); [|now apply IH].
  cbn [map fst]. constructor; [|now apply IH].
  intros Hin. apply Hk. apply in_map_iff in Hin as [y [E Hy]].
  apply filter_In in Hy as [Hy _]. apply in_map_iff. now exists y.
Qed.

Lemma category_labels_distinct : NoDup category_labels.
Proof. apply distinct_spec. reflexivity. Qed.

Lemma bigram_step_NoDup (features : list str) (bigram : str) :
  NoDup features -> NoDup (bigram_step features bigram).
Proof.
  intros H. unfold bigram_step.
  destruct (existsb _ bigram_terms); [|exact H].
  destruct (len _ >? 2); simpl; [|exact H].
  destruct (str_in _ features) eqn:E; simpl; [exact H|].
  apply str_in_false in E.
  apply NoDup_app; [exact H | repeat constructor; intros [] |].
  intros x Hx [<- | []]. contradiction.
Qed.

Lemma review_features_NoDup (review_lower : str) : NoDup (review_features review_lower).
Proof.
  unfold review_features.
  assert (P : NoDup (pattern_features review_lower)).
  { unfold pattern_features. apply selected_keys_distinct. exact category_labels_distinct. }
  revert P. generalize (pattern_features review_lower).
  induction (bigrams (split review_lower)) as [|b bs IH]; intros fs P; simpl.
  - exact P.
  - apply IH. now apply bigram_step_NoDup.
Qed.

Lemma occurrences_of_app (k : str) (l1 l2 : list str) :
  occurrences_of k (l1 ++ l2) = occurrences_of k l1 + occurrences_of k l2.
Proof. unfold occurrences_of, len. rewrite filter_app, length_app. lia. Qed.

Lemma occurrences_of_NoDup (k : str) (l : list str) :
  NoDup l -> occurrences_of k l = if str_in k l then 1 else 0.
Proof.
  unfold occurrences_of, len.
  induction 1 as [|x l Hx Hl IH]; [reflexivity|].
  cbn [filter str_in existsb]. fold (str_in k l).
  destruct (str_eqb k x) eqn:E; cbn [orb length].
  - apply str_eqb_eq in E as ->. apply str_in_false in Hx.
    rewrite Hx in IH. rewrite Nat2Z.inj_succ, IH. reflexivity.
  - exact IH.
Qed.

Lemma counter_get_Counter (k : str) (labels : list str) :
  counter_get k (Counter labels) = occurrences_of k labels.
Proof.
  unfold counter_get. rewrite dict_get_Counter.
  destruct (occurrences_of k labels =? 0) eqn:E; [|reflexivity].
  apply Z.eqb_eq in E. now rewrite E.
Qed.

Lemma all_features_fold (reviews : list cell) (acc : list str) :
  fold_left
    (fun all_features review =>
       if isna review then all_features
       else all_features ++ review_features (lower (as_str review)))
    reviews acc
  = acc ++ all_features reviews.
Proof.
  unfold all_features. revert acc.
  induction reviews as [|r reviews IH]; intros acc; simpl.
  - now rewrite app_nil_r.
  - rewrite IH. rewrite (IH (if isna r then [] else _)).
    destruct (isna r); simpl; [reflexivity | now rewrite app_assoc].
Qed.

Lemma all_features_cons (r : cell) (reviews : list cell) :
  all_features (r :: reviews) =
  (if isna r then [] else review_features (lower (as_str r))) ++ all_features reviews.
Proof.
  unfold all_features at 1. simpl. rewrite all_features_fold.
  destruct (isna r); reflexivity.
Qed.

Lemma all_features_app (a b : list cell) :
  all_features (a ++ b) = all_features a ++ all_features b.
Proof.
  induction a as [|r a IH]; [reflexivity|].
  simpl app. rewrite !all_features_cons, IH. now rewrite app_assoc.
Qed.

(** X1.  The count of a label is the number of present reviews that
    carry it: a review counts at most once for a label, however many of
    its words match, and a label that no review carries counts 0. *)
Theorem count_is_reviews_carrying (reviews : list cell) (label : str) :
  counter_get label (extract_features_from_reviews reviews) =
  len (filter (carries label) reviews).
Proof.
  unfold extract_features_from_reviews. rewrite counter_get_Counter.
  induction reviews as [|r reviews IH]; [reflexivity|].
  rewrite all_features_cons, occurrences_of_app, IH.
  unfold len. cbn [filter]. unfold carries at 2.
  destruct (isna r); cbn [negb andb].
  - reflexivity.
  - rewrite (occurrences_of_NoDup _ _ (review_features_NoDup _)).
    destruct (str_in label _); cbn [length]; lia.
Qed.

Lemma lstrip_suffix (s : str) :
  exists sp, s = sp ++ lstrip s /\ forallb is_space sp = true.
Proof.
  induction s as [|c s [sp [E F]]]; simpl.
  - now exists [].
  - destruct (is_space c) eqn:Ec.
    + exists (c :: sp). simpl. rewrite Ec, F. split; [now f_equal | reflexivity].
    + now exists [].
Qed.

Lemma lstrip_head (s : str) (c : ascii) (t : str) :
  lstrip s = c :: t -> is_space c = false.
Proof.
  induction s as [|d s IH]; simpl; [discriminate|].
  destruct (is_space d) eqn:E; [exact IH|].
  intros H. injection H as <- _. exact E.
Qed.

Lemma lstrip_fixed (s : str) :
  match s with [] => True | c :: _ => is_space c = false end -> lstrip s = s.
Proof. destruct s as [|c s]; simpl; [reflexivity|]. now intros ->. Qed.

Lemma lstrip_idem (s : str) : lstrip (lstrip s) = lstrip s.
Proof.
  apply lstrip_fixed. destruct (lstrip s) as [|c t] eqn:E; [exact I|].
  eapply lstrip_head. exact E.
Qed.

Lemma rstrip_prefix (s : str) : exists sp, s = rstrip s ++ sp.
Proof.
  unfold rstrip. destruct (lstrip_suffix (rev s)) as [sp [E _]].
  exists (rev sp). rewrite <- rev_app_distr, <- E. now rewrite rev_involutive.
Qed.

Lemma strip_idem (s : str) : strip (strip s) = strip s.
Proof.
  unfold strip.
  assert (L : lstrip (rstrip (lstrip s)) = rstrip (lstrip s)).
  { apply lstrip_fixed. destruct (rstrip (lstrip s)) as [|c t] eqn:E; [exact I|].
    destruct (rstrip_prefix (lstrip s)) as [sp Hsp]. rewrite E in Hsp.
    eapply lstrip_head. exact Hsp. }
  rewrite L. unfold rstrip. rewrite rev_involutive, lstrip_idem. reflexivity.
Qed.

Lemma bigram_step_labels (features : list str) (bigram label : str) :
  In label (bigram_step features bigram) ->
  In label features \/ (2 < len label /\ strip label = label).
Proof.
  unfold bigram_step.
  destruct (existsb _ bigram_terms); [|now left].
  destruct (len _ >? 2) eqn:L; simpl; [|now left].
  destruct (str_in _ features); simpl; [now left|].
  intros H. apply in_app_or in H as [H | [<- | []]]; [now left|].
  right. split; [now apply Z.gtb_lt in L | apply strip_idem].
Qed.

Lemma review_features_labels (review_lower label : str) :
  In label (review_features review_lower) ->
  In label category_labels \/ (2 < len label /\ strip label = label).
Proof.
  unfold review_features.
  assert (P : forall l, In l (pattern_features review_lower) ->
              In l category_labels \/ (2 < len l /\ strip l = l)).
  { intros l H. left. unfold pattern_features in H. apply in_map_iff in H as [fp [<- H]].
    apply filter_In in H as [H _]. unfold category_labels. now apply in_map. }
  revert P. generalize (pattern_features review_lower).
  induction (bigrams (split review_lower)) as [|b bs IH]; intros fs P; simpl.
  - apply P.
  - apply IH. intros l Hl.
    destruct (bigram_step_labels _ _ _ Hl) as [Hf | Hs]; [now apply P | now right].
Qed.

Lemma all_features_source (reviews : list cell) (label : str) :
  In label (all_features reviews) ->
  exists review, In review reviews /\ isna review = false /\
                 In label (review_features (lower (as_str review))).
Proof.
  induction reviews as [|r reviews IH]; [contradiction|].
  rewrite all_features_cons. intros H. apply in_app_or in H as [H | H].
  - destruct (isna r) eqn:E; [contradiction|]. exists r. repeat split; [now left | exact E | exact H].
  - destruct (IH H) as [r' [Hin [Hna Hl]]]. exists r'. repeat split; [now right | exact Hna | exact Hl].
Qed.

Lemma counter_incr_keys (k : str) (c : dict Z) :
  map fst (counter_incr k c) =
  if str_in k (map fst c) then map fst c else map fst c ++ [k].
Proof.
  induction c as [|[k' n] c IH]; [reflexivity|].
  cbn [counter_incr map fst str_in existsb]. fold (str_in k (map fst c)).
  destruct (str_eqb k k') eqn:E; cbn [orb map fst]; [reflexivity|].
  rewrite IH. destruct (str_in k (map fst c)); reflexivity.
Qed.

Lemma Counter_keys_NoDup (labels : list str) : NoDup (map fst (Counter labels)).
Proof.
  unfold Counter.
  assert (G : forall c, NoDup (map fst c) ->
              NoDup (map fst (fold_left (fun c k => counter_incr k c) labels c))).
  { induction labels as [|l labels IH]; intros c H; simpl; [exact H|].
    apply IH. rewrite counter_incr_keys.
    destruct (str_in l (map fst c)) eqn:E; [exact H|].
    apply str_in_false in E.
    apply NoDup_app; [exact H | repeat constructor; intros [] |].
    intros x Hx [<- | []]. contradiction. }
  apply G. constructor.
Qed.

Lemma dict_get_Counter_Some (k : str) (labels : list str) (n : Z) :
  dict_get k (Counter labels) = Some n -> 1 <= n /\ In k labels.
Proof.
  rewrite dict_get_Counter.
  destruct (occurrences_of k labels =? 0) eqn:E; [discriminate|].
  intros H; injection H as <-. apply Z.eqb_neq in E.
  unfold occurrences_of, len in *. split; [lia|].
  destruct (filter (str_eqb k) labels) as [|x xs] eqn:F; [simpl in E; lia|].
  assert (Hx : In x (filter (str_eqb k) labels)) by (rewrite F; now left).
  apply filter_In in Hx as [Hx Ex]. apply str_eqb_eq in Ex. now subst.
Qed.

(** X2.  The count table has each label once, every count is at least 1,
    and every label is either one of the twelve category names or a
    derived label of more than two characters with no whitespace at
    either end. *)
Theorem count_table_keys (reviews : list cell) :
  NoDup (map fst (extract_features_from_reviews reviews)) /\
  forall label n,
    dict_get label (extract_features_from_reviews reviews) = Some n ->
    1 <= n /\
    (In label category_labels \/ (2 < len label /\ strip label = label)).
Proof.
  split; [apply Counter_keys_NoDup|].
  intros label n H. apply dict_get_Counter_Some in H as [Hn Hin].
  split; [exact Hn|].
  apply all_features_source in Hin as [review [_ [_ Hl]]].
  now apply review_features_labels in Hl.
Qed.

Lemma fold_bigram_step_none (bs : list str) (fs : list str) :
  (forall b, In b bs -> qualifying_bigram b = false) ->
  fold_left bigram_step bs fs = fs.
Proof.
  revert fs; induction bs as [|b bs IH]; intros fs H; simpl; [reflexivity|].
  assert (E : bigram_step fs b = fs).
  { unfold bigram_step. fold (qualifying_bigram b). now rewrite (H b (or_introl eq_refl)). }
  rewrite E. apply IH. intros b' Hb'. apply H. now right.
Qed.

(** X3.  A review that no fixed pattern matches and none of whose
    adjacent word pairs contains "good", "bad", "great" or "poor" adds
    nothing to the count table, wherever it stands among the reviews. *)
Theorem unremarkable_review_adds_nothing (before after : list cell) (review : cell) :
  pattern_features (lower (as_str review)) = [] ->
  (forall b, In b (bigrams (split (lower (as_str review)))) -> qualifying_bigram b = false) ->
  extract_features_from_reviews (before ++ review :: after) =
  extract_features_from_reviews (before ++ after).
Proof.
  intros Hp Hb. unfold extract_features_from_reviews. f_equal.
  rewrite !all_features_app, all_features_cons.
  assert (E : review_features (lower (as_str review)) = []).
  { unfold review_features. rewrite Hp. now apply fold_bigram_step_none. }
  rewrite E. destruct (isna review); reflexivity.
Qed.

Lemma unremarkable_review_adds_nothing_witness :
  extract_features_from_reviews
    ([text_cell "good camera"] ++ text_cell "Excellent gadget, terrible box." ::
     [text_cell "bad screen"]) =
  extract_features_from_reviews ([text_cell "good camera"] ++ [text_cell "bad screen"]).
Proof.
  apply (unremarkable_review_adds_nothing [text_cell "good camera"] [text_cell "bad screen"]
           (text_cell "Excellent gadget, terrible box.")).
  - reflexivity.
  - intros b Hb. simpl in Hb.
    repeat (destruct Hb as [<- | Hb]; [reflexivity|]). contradiction.
Defined.

(** ** Ranking *)

Section StableSortFacts.
Context {A K : Type} (lt : K -> K -> bool) (key : A -> K) (same : K -> K -> bool).
Hypothesis lt_le_trans : forall a b c, lt a b = true -> lt c b = false -> lt a c = true.
Hypothesis same_lt : forall k a b, same k a = true -> lt a b = true -> same k b = false.

Let asc (a b : A) : Prop := lt (key b) (key a) = false.
Let desc (a b : A) : Prop := lt (key a) (key b) = false.

Lemma insert_sorted_last (x : A) (l : list A) :
  (forall y, In y l -> lt (key x) (key y) = false) -> insert_sorted lt key x l = l ++ [x].
Proof.
  induction l as [|y l IH]; intros H; simpl; [reflexivity|].
  rewrite (H y (or_introl eq_refl)). f_equal. apply IH. intros z Hz. apply H. now right.
Qed.

Lemma sort_stable_fixed (l : list A) :
  StronglySorted asc l -> sort_stable lt key l = l.
Proof.
  unfold sort_stable.
  assert (G : forall l' acc, StronglySorted asc (acc ++ l') ->
              fold_left (fun acc x => insert_sorted lt key x acc) l' acc = acc ++ l').
  { induction l' as [|x l' IH]; intros acc H; simpl.
    - now rewrite app_nil_r.
    - rewrite insert_sorted_last.
      + rewrite IH; rewrite <- app_assoc; [reflexivity | exact H].
      + apply StronglySorted_app_inv in H as [_ [_ C]].
        intros y Hy. apply (C y x Hy). now left. }
  intros H. apply (G l []). exact H.
Qed.

Lemma sorted_descending_fixed (l : list A) :
  StronglySorted desc l -> sorted lt key true l = l.
Proof.
  intros H. unfold sorted.
  rewrite sort_stable_fixed; [apply rev_involutive|].
  apply (StronglySorted_rev desc). exact H.
Qed.

Lemma insert_sorted_same (k : K) (x : A) (l : list A) :
  StronglySorted asc l ->
  filter (fun y => same k (key y)) (insert_sorted lt key x l) =
  filter (fun y => same k (key y)) l ++ filter (fun y => same k (key y)) [x].
Proof.
  induction 1 as [|y l Hs IH Hy]; [reflexivity|].
  cbn [insert_sorted]. destruct (lt (key x) (key y)) eqn:E.
  - destruct (same k (key x)) eqn:Ex.
    + assert (N : filter (fun z => same k (key z)) (y :: l) = []).
      { apply filter_none. intros z Hz. apply (same_lt k (key x)); [exact Ex|].
        destruct Hz as [<- | Hz]; [exact E|].
        rewrite Forall_forall in Hy. apply (lt_le_trans _ (key y)); [exact E | now apply Hy]. }
      cbn [filter] in *. rewrite Ex. rewrite N. reflexivity.
    + cbn [filter]. rewrite Ex. now rewrite app_nil_r.
  - cbn [filter]. destruct (same k (key y)); [cbn [app]; f_equal|]; exact IH.
Qed.

End StableSortFacts.

Section RankingFacts.
Context {A : Type} (key : A -> Z).

Lemma Zltb_trans (a b c : Z) : (a <? b) = true -> (b <? c) = true -> (a <? c) = true.
Proof. rewrite !Z.ltb_lt. lia. Qed.

Lemma Zltb_asym (a b : Z) : (a <? b) = true -> (b <? a) = false.
Proof. rewrite Z.ltb_lt, Z.ltb_ge. lia. Qed.

Lemma Zltb_le_trans (a b c : Z) : (a <? b) = true -> (c <? b) = false -> (a <? c) = true.
Proof. rewrite !Z.ltb_lt, Z.ltb_ge. lia. Qed.

Lemma Zeqb_lt (k a b : Z) : (k =? a) = true -> (a <? b) = true -> (k =? b) = false.
Proof. rewrite Z.eqb_eq, Z.ltb_lt, Z.eqb_neq. lia. Qed.

Lemma sort_stable_same (k : Z) (l : list A) :
  filter (fun y => k =? key y) (sort_stable Z.ltb key l) = filter (fun y => k =? key y) l.
Proof.
  unfold sort_stable.
  assert (G : forall l' acc,
             StronglySorted (fun a b => (key b <? key a) = false) acc ->
             filter (fun y => k =? key y)
                    (fold_left (fun acc x => insert_sorted Z.ltb key x acc) l' acc) =
             filter (fun y => k =? key y) acc ++ filter (fun y => k =? key y) l').
  { induction l' as [|x l' IH]; intros acc H; simpl fold_left.
    - now rewrite app_nil_r.
    - rewrite IH by (now apply (insert_sorted_ascending Z.ltb key Zltb_trans Zltb_asym)).
      rewrite (insert_sorted_same Z.ltb key Z.eqb Zltb_le_trans Zeqb_lt k x acc H).
      rewrite <- app_assoc. f_equal. cbn [filter]. now destruct (k =? key x). }
  apply (G l []). constructor.
Qed.

Lemma filter_rev {B : Type} (p : B -> bool) (l : list B) :
  filter p (rev l) = rev (filter p l).
Proof.
  induction l as [|x l IH]; [reflexivity|].
  simpl. rewrite filter_app, IH. simpl. destruct (p x); [reflexivity | now rewrite app_nil_r].
Qed.

(** A ranking by decreasing integer key keeps entries of equal key in
    the order they had. *)
Lemma sorted_reverse_stable (k : Z) (l : list A) :
  filter (fun y => k =? key y) (sorted Z.ltb key true l) = filter (fun y => k =? key y) l.
Proof.
  unfold sorted. rewrite filter_rev, sort_stable_same, filter_rev. apply rev_involutive.
Qed.

Lemma ranking_descending (l : list A) :
  StronglySorted (fun a b => key b <= key a) (sorted Z.ltb key true l).
Proof.
  pose proof (sorted_descending Z.ltb key Zltb_trans Zltb_asym l) as H.
  induction H as [|x s Hs IH Hx]; constructor; [exact IH|].
  rewrite Forall_forall in *. intros y Hy. specialize (Hx y Hy).
  apply Z.ltb_ge in Hx. exact Hx.
Qed.

End RankingFacts.

Lemma StronglySorted_firstn {A : Type} (R : A -> A -> Prop) (n : nat) (l : list A) :
  StronglySorted R l -> StronglySorted R (firstn n l).
Proof.
  intros H. rewrite <- (firstn_skipn n l) in H.
  now apply StronglySorted_app_inv in H as [H1 _].
Qed.

(** X4.  [most_common(n)] keeps the [n] most frequent labels, most
    frequent first: what it keeps and what it leaves out make up the
    table, no label left out counts more than a label kept, and labels
    of equal count stay in the order the table had them, the order in
    which they were first seen. *)
Theorem most_common_spec (n : nat) (c : dict Z) :
  exists rest,
    Permutation (most_common n c ++ rest) c /\
    length (most_common n c) = Nat.min n (length c) /\
    StronglySorted (fun a b : str * Z => snd b <= snd a) (most_common n c ++ rest) /\
    (forall a b, In a (most_common n c) -> In b rest -> snd b <= snd a) /\
    forall v, filter (fun x : str * Z => v =? snd x) (most_common n c ++ rest) =
              filter (fun x : str * Z => v =? snd x) c.
Proof.
  unfold most_common. exists (skipn n (sorted Z.ltb snd true c)).
  rewrite firstn_skipn.
  pose proof (sorted_perm Z.ltb (@snd str Z) true c) as P.
  pose proof (ranking_descending (@snd str Z) c) as D.
  split; [exact P|]. split.
  - rewrite length_firstn, (Permutation_length P). reflexivity.
  - split; [exact D|]. split.
    + rewrite <- (firstn_skipn n (sorted Z.ltb snd true c)) in D.
      apply StronglySorted_app_inv in D as [_ [_ C]]. exact C.
    + intros v. apply sorted_reverse_stable.
Qed.

(** ** The record table *)

Lemma dict_set_fresh {V : Type} (k : str) (v : V) (d : dict V) :
  ~ In k (map fst d) -> dict_set k v d = d ++ [(k, v)].
Proof.
  induction d as [|[k' v'] d IH]; intros H; simpl; [reflexivity|].
  destruct (str_eqb k k') eqn:E.
  - apply str_eqb_eq in E. exfalso. apply H. left. now subst.
  - f_equal. apply IH. intros Hin. apply H. now right.
Qed.

Lemma analysis_loop_keys (df : DataFrame) (review_col : str) (rating_col : option str)
    (fcs : list (str * Z)) (acc fa : dict FeatureRecord) :
  NoDup (map fst acc ++ map fst fcs) ->
  for_each (analyze_feature df review_col rating_col) fcs acc = Ok fa ->
  map label_count fa = map label_count acc ++ fcs.
Proof.
  revert acc; induction fcs as [|[f c] fcs IH]; intros acc N H.
  - simpl in H. injection H as <-. now rewrite app_nil_r.
  - simpl in H. apply bind_Ok in H as [acc' [H1 H2]].
    apply bind_Ok in H1 as [m [_ H1]]. injection H1 as <-.
    assert (F : ~ In f (map fst acc)).
    { simpl in N. apply NoDup_remove_2 in N. intros Hin. apply N.
      apply in_or_app. now left. }
    rewrite (dict_set_fresh _ _ _ F) in H2.
    apply IH in H2.
    + rewrite H2, map_app, <- app_assoc. destruct m as [rs ss]. reflexivity.
    + rewrite map_app. simpl. rewrite <- app_assoc. exact N.
Qed.

Lemma NoDup_firstn {A : Type} (n : nat) (l : list A) : NoDup l -> NoDup (firstn n l).
Proof.
  intros H. rewrite <- (firstn_skipn n l) in H. now apply NoDup_app_remove_r in H.
Qed.

Lemma most_common_keys_NoDup (n : nat) (c : dict Z) :
  NoDup (map fst c) -> NoDup (map fst (most_common n c)).
Proof.
  intros H. unfold most_common. rewrite <- firstn_map. apply NoDup_firstn.
  eapply Permutation_NoDup; [|exact H].
  apply Permutation_map, Permutation_sym, sorted_perm.
Qed.

(** X5.  The record table has one record per label of the top 20, in
    ranking order and with the label's count: at most 20 records, fewer
    only when fewer labels were counted. *)
Theorem analysis_keys (df : DataFrame) (review_col : str) (rating_col : option str)
    (features : dict Z) (fa : dict FeatureRecord) :
  NoDup (map fst features) ->
  analyze_feature_sentiment df review_col rating_col features = Ok fa ->
  map label_count fa = most_common 20 features /\
  len fa = Z.min 20 (len features).
Proof.
  intros N H. unfold analyze_feature_sentiment in H.
  apply analysis_loop_keys in H; [|simpl; now apply most_common_keys_NoDup].
  simpl in H. split; [exact H|].
  assert (E : length fa = length (most_common 20 features))
    by (rewrite <- H; symmetry; apply length_map).
  destruct (most_common_spec 20 features) as [rest [_ [L _]]].
  unfold len. lia.
Qed.

Lemma analysis_keys_witness :
  map label_count
      [(lit "display",
        {| count := 1; avg_rating := 0; positive_ratio := 0; negative_ratio := 0;
           neutral_ratio := 1; total_mentions := 0 |})] =
    most_common 20 [(lit "display", 1)] /\
  len [(lit "display",
        {| count := 1; avg_rating := 0; positive_ratio := 0; negative_ratio := 0;
           neutral_ratio := 1; total_mentions := 0 |})] =
    Z.min 20 (len [(lit "display", 1)]).
Proof.
  apply (analysis_keys screen_review (lit "review") None [(lit "display", 1)]).
  - repeat constructor. intros [].
  - reflexivity.
Defined.

Lemma StronglySorted_map_inv {A B : Type} (R : B -> B -> Prop) (f : A -> B) (l : list A) :
  StronglySorted R (map f l) -> StronglySorted (fun a b => R (f a) (f b)) l.
Proof.
  induction l as [|x l IH]; simpl; intros H; [constructor|].
  inversion H as [|? ? Hs Hx]; subst. constructor; [now apply IH|].
  rewrite Forall_forall in *. intros y Hy. apply Hx. now apply in_map.
Qed.

Lemma StronglySorted_impl {A : Type} (R R' : A -> A -> Prop) (l : list A) :
  (forall a b, R a b -> R' a b) -> StronglySorted R l -> StronglySorted R' l.
Proof.
  intros I. induction 1 as [|x l Hs IH Hx]; constructor; [exact IH|].
  rewrite Forall_forall in *. intros y Hy. apply I. now apply Hx.
Qed.

(** X6.  The frequency ranking of the report changes nothing: the
    record table is already in decreasing order of count, so TOP
    FEATURES BY FREQUENCY lists its first ten records in the order
    they were analysed. *)
Theorem frequency_ranking_is_analysis_order (df : DataFrame) (review_col : str)
    (rating_col : option str) (features : dict Z) (fa : dict FeatureRecord) :
  NoDup (map fst features) ->
  analyze_feature_sentiment df review_col rating_col features = Ok fa ->
  by_frequency fa = fa.
Proof.
  intros N H. destruct (analysis_keys _ _ _ _ _ N H) as [K _].
  unfold by_frequency. apply sorted_descending_fixed.
  assert (D : StronglySorted (fun a b : str * Z => snd b <= snd a) (map label_count fa)).
  { rewrite K. unfold most_common. apply StronglySorted_firstn, ranking_descending. }
  apply StronglySorted_map_inv in D.
  revert D. apply StronglySorted_impl.
  intros a b Hab. simpl in Hab. apply Z.ltb_ge. exact Hab.
Qed.

Lemma frequency_ranking_is_analysis_order_witness :
  extract_features_from_reviews (map snd (dropna_items counted_reviews (lit "review"))) =
    [(lit "display", 1); (lit "battery", 2); (lit "camera", 3)] /\
  map label_count counted_records =
    [(lit "camera", 3); (lit "battery", 2); (lit "display", 1)] /\
  by_frequency counted_records = counted_records.
Proof.
  split; [vm_compute; reflexivity|]. split; [reflexivity|].
  apply (frequency_ranking_is_analysis_order counted_reviews (lit "review") None
           (extract_features_from_reviews
              (map snd (dropna_items counted_reviews (lit "review"))))).
  - vm_compute. repeat constructor; simpl; intuition discriminate.
  - vm_compute. reflexivity.
Defined.

Lemma py_sum_cons (x : Z) (xs : list Z) : py_sum (x :: xs) = x + py_sum xs.
Proof.
  unfold py_sum. simpl.
  assert (G : forall l a b, fold_left Z.add l (a + b) = a + fold_left Z.add l b).
  { induction l as [|y l IH]; intros a b; simpl; [reflexivity|].
    rewrite <- IH. f_equal. lia. }
  rewrite <- G. f_equal. lia.
Qed.

Lemma py_sum_app (xs ys : list Z) : py_sum (xs ++ ys) = py_sum xs + py_sum ys.
Proof.
  induction xs as [|x xs IH]; [reflexivity|].
  simpl app. rewrite !py_sum_cons, IH. lia.
Qed.

Lemma py_sum_perm (xs ys : list Z) : Permutation xs ys -> py_sum xs = py_sum ys.
Proof.
  induction 1; rewrite ?py_sum_cons; lia.
Qed.

Lemma py_sum_nonneg (xs : list Z) : Forall (fun x => 0 <= x) xs -> 0 <= py_sum xs.
Proof.
  induction 1 as [|x xs Hx Hxs IH]; [reflexivity|]. rewrite py_sum_cons. lia.
Qed.

Lemma counter_incr_sum (k : str) (c : dict Z) :
  py_sum (map snd (counter_incr k c)) = py_sum (map snd c) + 1.
Proof.
  induction c as [|[k' n] c IH]; [reflexivity|].
  cbn [counter_incr]. destruct (str_eqb k k'); cbn [map snd]; rewrite !py_sum_cons; lia.
Qed.

Lemma counter_incr_positive (k : str) (c : dict Z) :
  Forall (fun x => 1 <= snd x) c -> Forall (fun x => 1 <= snd x) (counter_incr k c).
Proof.
  induction 1 as [|[k' n] c Hx Hc IH]; simpl.
  - repeat constructor. simpl. lia.
  - destruct (str_eqb k k'); constructor; simpl in *; try assumption; lia.
Qed.

Lemma Counter_sum (labels : list str) :
  py_sum (map snd (Counter labels)) = len labels /\
  Forall (fun x => 1 <= snd x) (Counter labels).
Proof.
  unfold Counter.
  assert (G : forall c, Forall (fun x => 1 <= snd x) c ->
              py_sum (map snd (fold_left (fun c k => counter_incr k c) labels c)) =
                py_sum (map snd c) + len labels /\
              Forall (fun x => 1 <= snd x)
                     (fold_left (fun c k => counter_incr k c) labels c)).
  { induction labels as [|l labels IH]; intros c H; simpl fold_left.
    - unfold len. simpl. split; [lia | exact H].
    - destruct (IH _ (counter_incr_positive l c H)) as [S P].
      split; [|exact P]. rewrite S, counter_incr_sum. unfold len. simpl length. lia. }
  destruct (G [] (Forall_nil _)) as [S P]. split; [exact S | exact P].
Qed.

(** X7.  The two feature numbers of the report's overview cover the top
    20 labels only: the number of features is the number of labels
    counted, capped at 20, and the total of mentions is the total over
    those labels, which is every label extracted when at most 20
    distinct labels were counted, and no more than that otherwise. *)
Theorem overview_numbers (reviews : list cell) (df : DataFrame) (review_col : str)
    (rating_col : option str) (fa : dict FeatureRecord) :
  analyze_feature_sentiment df review_col rating_col
    (extract_features_from_reviews reviews) = Ok fa ->
  len fa = Z.min 20 (len (extract_features_from_reviews reviews)) /\
  py_sum (map (fun x : item => count (snd x)) fa) <= len (all_features reviews) /\
  (len (extract_features_from_reviews reviews) <= 20 ->
   py_sum (map (fun x : item => count (snd x)) fa) = len (all_features reviews)).
Proof.
  set (c := extract_features_from_reviews reviews). intros H.
  assert (N : NoDup (map fst c)) by apply Counter_keys_NoDup.
  destruct (analysis_keys _ _ _ _ _ N H) as [K L].
  split; [exact L|].
  assert (E : map (fun x : item => count (snd x)) fa = map snd (most_common 20 c)).
  { rewrite <- K, map_map. reflexivity. }
  rewrite E.
  assert (SP : py_sum (map snd c) = len (all_features reviews) /\
               Forall (fun x => 1 <= snd x) c) by apply Counter_sum.
  destruct SP as [S P].
  destruct (most_common_spec 20 c) as [rest [Perm [Len _]]].
  assert (T : py_sum (map snd (most_common 20 c)) + py_sum (map snd rest)
              = len (all_features reviews)).
  { rewrite <- S, <- py_sum_app, <- map_app. apply py_sum_perm, Permutation_map, Perm. }
  assert (R : Forall (fun x => 0 <= x) (map snd rest)).
  { rewrite Forall_forall. intros x Hx. apply in_map_iff in Hx as [y [<- Hy]].
    rewrite Forall_forall in P.
    assert (1 <= snd y); [|lia]. apply P.
    apply (Permutation_in _ Perm). apply in_or_app. now right. }
  apply py_sum_nonneg in R. split; [lia|].
  intros Le.
  assert (Hrest : rest = []).
  { apply Permutation_length in Perm. rewrite length_app, Len in Perm.
    unfold len in Le. destruct rest; [reflexivity | cbn [length] in Perm; lia]. }
  rewrite Hrest in T. unfold py_sum at 2 in T. simpl in T. lia.
Qed.

Lemma overview_numbers_witness :
  len [(lit "display",
        {| count := 1; avg_rating := 0; positive_ratio := 0; negative_ratio := 0;
           neutral_ratio := 1; total_mentions := 0 |})] =
    Z.min 20 (len (extract_features_from_reviews [text_cell "Nice screen"])) /\
  py_sum (map (fun x : item => count (snd x))
              [(lit "display",
                {| count := 1; avg_rating := 0; positive_ratio := 0; negative_ratio := 0;
                   neutral_ratio := 1; total_mentions := 0 |})])
    <= len (all_features [text_cell "Nice screen"]) /\
  (len (extract_features_from_reviews [text_cell "Nice screen"]) <= 20 ->
   py_sum (map (fun x : item => count (snd x))
               [(lit "display",
                 {| count := 1; avg_rating := 0; positive_ratio := 0; negative_ratio := 0;
                    neutral_ratio := 1; total_mentions := 0 |})])
   = len (all_features [text_cell "Nice screen"])).
Proof.
  apply (overview_numbers [text_cell "Nice screen"] screen_review (lit "review") None).
  reflexivity.
Defined.

(** ** Ratings *)

Lemma scan_review_rated (df : DataFrame) (rating_col feature : str)
    (acc : mentions) (item : nat * cell) :
  match scan_review df (Some rating_col) feature acc item with
  | Ok m =>
      (mentions_feature feature item = true -> unreadable_rating df rating_col item = false) /\
      map Some (fst m) =
        map Some (fst acc) ++
        map (fun i => as_float (loc df (fst i) rating_col))
            (filter (rated df rating_col) (filter (mentions_feature feature) [item]))
  | Raise _ =>
      mentions_feature feature item = true /\ unreadable_rating df rating_col item = true
  end.
Proof.
  destruct acc as [ratings sentiments], item as [idx review].
  unfold scan_review, mentions_feature, unreadable_rating, rated. cbn [fst snd filter].
  destruct (isna review); cbn [negb andb].
  - split; [discriminate | now rewrite app_nil_r].
  - destruct (contains feature (lower (as_str review))); cbn [filter fst snd].
    + destruct (negb (isna (loc df idx rating_col))) eqn:R; cbn [bind andb map].
      * destruct (as_float (loc df idx rating_col)) as [x|] eqn:F; cbn [bind fst].
        -- split; [reflexivity|]. rewrite map_app. cbn [map]. now rewrite ?F.
        -- now split.
      * split; [reflexivity | now rewrite app_nil_r].
    + split; [discriminate | now rewrite app_nil_r].
Qed.

Lemma scan_loop_rated (df : DataFrame) (rating_col feature : str)
    (items : list (nat * cell)) (acc : mentions) :
  match for_each (scan_review df (Some rating_col) feature) items acc with
  | Ok m =>
      (forall i, In i (filter (mentions_feature feature) items) ->
                 unreadable_rating df rating_col i = false) /\
      map Some (fst m) =
        map Some (fst acc) ++
        map (fun i => as_float (loc df (fst i) rating_col))
            (filter (rated df rating_col) (filter (mentions_feature feature) items))
  | Raise _ =>
      exists i, In i (filter (mentions_feature feature) items) /\
                unreadable_rating df rating_col i = true
  end.
Proof.
  revert acc; induction items as [|item items IH]; intros acc.
  - simpl. split; [contradiction | now rewrite app_nil_r].
  - cbn [for_each].
    pose proof (scan_review_rated df rating_col feature acc item) as S.
    destruct (scan_review df (Some rating_col) feature acc item) as [acc'|e]; cbn [bind].
    + destruct S as [S1 S2]. specialize (IH acc').
      destruct (for_each _ items acc') as [m|e].
      * destruct IH as [I1 I2]. split.
        -- intros i Hi. cbn [filter] in Hi.
           destruct (mentions_feature feature item) eqn:M; [|now apply I1].
           destruct Hi as [<- | Hi]; [now apply S1 | now apply I1].
        -- rewrite I2, S2, <- app_assoc, <- map_app, <- filter_app. f_equal. f_equal. f_equal.
           cbn [filter]. destruct (mentions_feature feature item); reflexivity.
      * destruct IH as [i [Hi U]]. exists i. split; [|exact U].
        cbn [filter]. destruct (mentions_feature feature item); [now right | exact Hi].
    + destruct S as [M U]. exists item. split; [|exact U].
      cbn [filter]. rewrite M. now left.
Qed.

Lemma scan_reviews_rated (df : DataFrame) (review_col rating_col feature : str) :
  match scan_reviews df review_col (Some rating_col) feature with
  | Ok m =>
      (forall i, In i (mentioning df review_col feature) ->
                 unreadable_rating df rating_col i = false) /\
      map Some (fst m) =
        map (fun i => as_float (loc df (fst i) rating_col))
            (filter (rated df rating_col) (mentioning df review_col feature))
  | Raise _ =>
      exists i, In i (mentioning df review_col feature) /\
                unreadable_rating df rating_col i = true
  end.
Proof.
  unfold scan_reviews.
  pose proof (scan_loop_rated df rating_col feature (dropna_items df review_col) ([], [])) as S.
  rewrite mentioning_filter in S. exact S.
Qed.

Lemma analysis_loop_raises (df : DataFrame) (review_col : str) (rating_col : option str)
    (fcs : list (str * Z)) (acc : dict FeatureRecord) :
  (exists e, for_each (analyze_feature df review_col rating_col) fcs acc = Raise e) <->
  exists fc e, In fc fcs /\ scan_reviews df review_col rating_col (fst fc) = Raise e.
Proof.
  revert acc; induction fcs as [|[f c] fcs IH]; intros acc.
  - simpl. split; [intros [e H]; discriminate | intros [fc [e [[] _]]]].
  - cbn [for_each analyze_feature].
    destruct (scan_reviews df review_col rating_col f) as [m|e] eqn:S; cbn [bind].
    + rewrite IH. split.
      * intros [fc [e [Hin H]]]. exists fc, e. split; [now right | exact H].
      * intros [fc [e [[<- | Hin] H]]].
        -- simpl in H. congruence.
        -- now exists fc, e.
    + split; [|intros _; now exists e].
      intros _. exists (f, c), e. split; [now left | exact S].
Qed.

(** X8.  Without a rating column the analysis cannot raise, and every
    record it builds has average rating 0 and no rated mention. *)
Theorem unrated_analysis (df : DataFrame) (review_col : str) (features : dict Z) :
  exists fa,
    analyze_feature_sentiment df review_col None features = Ok fa /\
    forall feature r,
      dict_get feature fa = Some r ->
      avg_rating r = 0%float /\ total_mentions r = 0.
Proof.
  destruct (analysis_unrated df review_col features) as [fa H].
  exists fa. split; [exact H|].
  intros feature r Hr.
  destruct (analysis_records _ _ _ _ _ _ _ H Hr) as [c [m [_ [Hs ->]]]].
  destruct (scan_reviews_unrated df review_col feature) as [ss Hss].
  rewrite Hss in Hs. injection Hs as <-. split; reflexivity.
Qed.

(** X9.  With a rating column the analysis raises ValueError exactly
    when some review that mentions one of the top-20 labels has a rating
    that is present and that float() rejects; ratings of reviews that
    mention no analysed label are never converted. *)
Theorem analysis_raises_iff (df : DataFrame) (review_col rating_col : str)
    (features : dict Z) :
  analyze_feature_sentiment df review_col (Some rating_col) features = Raise ValueError <->
  exists fc i,
    In fc (most_common 20 features) /\
    In i (mentioning df review_col (fst fc)) /\
    unreadable_rating df rating_col i = true.
Proof.
  unfold analyze_feature_sentiment. split.
  - intros H.
    destruct (proj1 (analysis_loop_raises df review_col (Some rating_col)
                       (most_common 20 features) []) (ex_intro _ _ H))
      as [fc [e [Hin S]]].
    pose proof (scan_reviews_rated df review_col rating_col (fst fc)) as R.
    rewrite S in R. destruct R as [i [Hi U]]. now exists fc, i.
  - intros [fc [i [Hin [Hi U]]]].
    assert (S : exists e, scan_reviews df review_col (Some rating_col) (fst fc) = Raise e).
    { pose proof (scan_reviews_rated df review_col rating_col (fst fc)) as R.
      destruct (scan_reviews df review_col (Some rating_col) (fst fc)) as [m|e].
      - destruct R as [R _]. rewrite (R i Hi) in U. discriminate.
      - now exists e. }
    destruct S as [e S].
    destruct (proj2 (analysis_loop_raises df review_col (Some rating_col)
                       (most_common 20 features) []) (ex_intro _ fc (ex_intro _ e (conj Hin S))))
      as [[] H].
    exact H.
Qed.

(** X10.  The field total_mentions of a record is the number of reviews
    that mention the label and whose rating is present: the ratings
    collected for the label are those of these reviews, in row order.
    It never exceeds the number of reviews that mention the label, and
    when it is 0 the average rating of the record is 0. *)
Theorem total_mentions_counts_rated (df : DataFrame) (review_col rating_col : str)
    (features : dict Z) (fa : dict FeatureRecord) (feature : str) (r : FeatureRecord) :
  analyze_feature_sentiment df review_col (Some rating_col) features = Ok fa ->
  dict_get feature fa = Some r ->
  total_mentions r = len (filter (rated df rating_col) (mentioning df review_col feature)) /\
  total_mentions r <= len (mentioning df review_col feature) /\
  (exists ratings sentiments,
     scan_reviews df review_col (Some rating_col) feature = Ok (ratings, sentiments) /\
     map Some ratings =
       map (fun i => as_float (loc df (fst i) rating_col))
           (filter (rated df rating_col) (mentioning df review_col feature)) /\
     total_mentions r = len ratings) /\
  (total_mentions r = 0 -> avg_rating r = 0%float).
Proof.
  intros H Hr.
  destruct (analysis_records _ _ _ _ _ _ _ H Hr) as [c [[ratings ss] [_ [Hs ->]]]].
  pose proof (scan_reviews_rated df review_col rating_col feature) as R.
  rewrite Hs in R. destruct R as [_ R]. cbn [fst] in R.
  assert (L : length ratings =
              length (filter (rated df rating_col) (mentioning df review_col feature))).
  { apply (f_equal (@length (option float))) in R. now rewrite !length_map in R. }
  split; [|split; [|split]].
  - cbn. unfold len. now rewrite L.
  - cbn. unfold len. rewrite L.
    pose proof (filter_length_le (rated df rating_col) (mentioning df review_col feature)).
    lia.
  - exists ratings, ss. split; [exact Hs|]. split; [exact R | reflexivity].
  - cbn. unfold len. intros E. destruct ratings; [reflexivity | cbn [length] in E; lia].
Qed.

Lemma total_mentions_counts_rated_witness :
  len (mentioning partly_rated (lit "comment") (lit "camera")) = 3 /\
  total_mentions
    (feature_record 3 ([float_of_Z 5; float_of_Z 4], [positive; negative; neutral])) = 2 /\
  exists ratings sentiments,
    scan_reviews partly_rated (lit "comment") (Some (lit "score")) (lit "camera") =
      Ok (ratings, sentiments) /\
    map Some ratings =
      map (fun i => as_float (loc partly_rated (fst i) (lit "score")))
          (filter (rated partly_rated (lit "score"))
                  (mentioning partly_rated (lit "comment") (lit "camera"))) /\
    total_mentions
      (feature_record 3 ([float_of_Z 5; float_of_Z 4], [positive; negative; neutral])) =
      len ratings.
Proof.
  split; [reflexivity|]. split; [reflexivity|].
  apply (total_mentions_counts_rated partly_rated (lit "comment") (lit "score")
           [(lit "camera", 3)]
           [(lit "camera",
             feature_record 3 ([float_of_Z 5; float_of_Z 4], [positive; negative; neutral]))]
           (lit "camera")); reflexivity.
Defined.

(** X11.  The sentiment ratios of a label do not depend on the ratings:
    whatever the rating column, or without one, two analyses of the same
    reviews that return give the label the same three ratios. *)
Theorem ratios_ignore_ratings (df : DataFrame) (review_col : str)
    (rating_col rating_col' : option str) (features features' : dict Z)
    (fa fa' : dict FeatureRecord) (feature : str) (r r' : FeatureRecord) :
  analyze_feature_sentiment df review_col rating_col features = Ok fa ->
  analyze_feature_sentiment df review_col rating_col' features' = Ok fa' ->
  dict_get feature fa = Some r ->
  dict_get feature fa' = Some r' ->
  positive_ratio r = positive_ratio r' /\
  negative_ratio r = negative_ratio r' /\
  neutral_ratio r = neutral_ratio r'.
Proof.
  intros H H' Hr Hr'.
  destruct (analysis_records _ _ _ _ _ _ _ H Hr) as [c [[rs ss] [_ [Hs ->]]]].
  destruct (analysis_records _ _ _ _ _ _ _ H' Hr') as [c' [[rs' ss'] [_ [Hs' ->]]]].
  apply scan_reviews_Ok in Hs as [-> _]. apply scan_reviews_Ok in Hs' as [-> _].
  unfold feature_record.
  destruct (sentiment_ratios float_arith _) as [[p q] n]. repeat split; reflexivity.
Qed.

Lemma ratios_ignore_ratings_witness :
  positive_ratio (feature_record 1 ([float_of_Z (-1)], [negative])) =
    positive_ratio (feature_record 1 ([], [negative])) /\
  negative_ratio (feature_record 1 ([float_of_Z (-1)], [negative])) =
    negative_ratio (feature_record 1 ([], [negative])) /\
  neutral_ratio (feature_record 1 ([float_of_Z (-1)], [negative])) =
    neutral_ratio (feature_record 1 ([], [negative])).
Proof.
  apply (ratios_ignore_ratings negative_scores (lit "comment") (Some (lit "score")) None
           [(lit "battery", 1)] [(lit "battery", 1)]
           [(lit "battery", feature_record 1 ([float_of_Z (-1)], [negative]))]
           [(lit "battery", feature_record 1 ([], [negative]))]
           (lit "battery")); reflexivity.
Defined.

(** ** The sentiment window *)

(** X12.  A text that does not contain the feature is classified
    neutral, whatever sentiment words it holds; in particular the empty
    text is. *)
Theorem absent_feature_is_neutral (text feature : str) :
  ~ Occurs feature text -> analyze_context_sentiment text feature = neutral.
Proof.
  intros H. unfold analyze_context_sentiment, find.
  now rewrite (find_from_none feature text 0 H).
Qed.

Lemma absent_feature_is_neutral_witness :
  analyze_context_sentiment (lit "great, good, excellent phone") (lit "camera") = neutral.
Proof.
  apply (absent_feature_is_neutral (lit "great, good, excellent phone") (lit "camera")).
  apply not_contains_spec. reflexivity.
Defined.

(** X13.  The classification looks at the first occurrence only and at
    no more than 50 characters on either side of it: two texts whose
    first occurrences of the feature have the same 50 characters before
    and the same 50 characters after are classified alike, whatever
    else the texts hold. *)
Theorem sentiment_is_local (feature text1 pre1 post1 text2 pre2 post2 : str) :
  FirstOccurrence feature text1 pre1 post1 ->
  FirstOccurrence feature text2 pre2 post2 ->
  last_chars 50 pre1 = last_chars 50 pre2 ->
  firstn 50 post1 = firstn 50 post2 ->
  analyze_context_sentiment text1 feature = analyze_context_sentiment text2 feature.
Proof.
  intros F1 F2 Epre Epost.
  rewrite (sentiment_of_first_occurrence _ _ _ _ F1),
          (sentiment_of_first_occurrence _ _ _ _ F2).
  cbv zeta. now rewrite Epre, Epost.
Qed.

Lemma sentiment_is_local_witness :
  analyze_context_sentiment
    (lit "camera is fine, 0123456789 0123456789 0123456789 0123456789 but terrible box")
    (lit "camera") =
  analyze_context_sentiment
    (lit "camera is fine, 0123456789 0123456789 0123456789 0123456789 but great camera")
    (lit "camera").
Proof.
  apply (sentiment_is_local (lit "camera")
           _ [] (lit " is fine, 0123456789 0123456789 0123456789 0123456789 but terrible box")
           _ [] (lit " is fine, 0123456789 0123456789 0123456789 0123456789 but great camera")).
  - split; [reflexivity | intros; simpl; lia].
  - split; [reflexivity | intros; simpl; lia].
  - reflexivity.
  - reflexivity.
Defined.

(** ** The ranking by rating *)

Lemma positive_above (a b : float) :
  is_number a = true -> PrimFloat.ltb 0 b = true -> PrimFloat.ltb a b = false ->
  PrimFloat.ltb 0 a = true.
Proof.
  unfold is_number, PrimFloat.is_nan. rewrite negb_involutive.
  rewrite !ltb_spec, FloatAxioms.eqb_spec.
  change (Prim2SF 0) with (S754_zero false).
  unfold SFltb, SFeqb, SFcompare.
  destruct (Prim2SF a) as [[]|[]| |[] ma ea], (Prim2SF b) as [[]|[]| |[] mb eb];
    try discriminate; try reflexivity; compare_cases.
Qed.

Lemma filter_is_prefix {A : Type} (p : A -> bool) (R : A -> A -> Prop) (l : list A) :
  (forall a b, In a l -> In b l -> R a b -> p b = true -> p a = true) ->
  StronglySorted R l ->
  filter p l = firstn (length (filter p l)) l.
Proof.
  intros C S. induction S as [|x l Hs IH Hx]; [reflexivity|].
  cbn [filter]. destruct (p x) eqn:Px.
  - cbn [length firstn]. f_equal. apply IH.
    intros a b Ha Hb. apply C; now right.
  - assert (N : filter p l = []).
    { apply filter_none. intros y Hy. destruct (p y) eqn:Py; [|reflexivity].
      rewrite Forall_forall in Hx.
      rewrite <- Px. symmetry. apply (C x y); [now left | now right | now apply Hx | exact Py]. }
    rewrite N. reflexivity.
Qed.

Lemma enumerate_from_sorted {A : Type} (R : A -> A -> Prop) (i : nat) (l : list A) :
  StronglySorted R l ->
  StronglySorted (fun a b : nat * A => R (snd a) (snd b)) (enumerate_from i l).
Proof.
  intros S. revert i. induction S as [|x l Hs IH Hx]; intros i; simpl; constructor.
  - apply IH.
  - rewrite Forall_forall in *. intros [j y] Hy. simpl.
    apply Hx. clear - Hy. revert i Hy. induction l as [|z l IHl]; intros i Hy; [contradiction|].
    simpl in Hy. destruct Hy as [E | Hy]; [injection E as _ ->; now left|].
    right. eapply IHl. exact Hy.
Qed.

Lemma enumerate_from_ranks {A : Type} (i : nat) (l : list A) :
  map fst (enumerate_from i l) = seq i (length l).
Proof.
  revert i; induction l as [|x l IH]; intros i; simpl; [reflexivity|]. now rewrite IH.
Qed.

Lemma enumerate_from_In {A : Type} (i j : nat) (x : A) (l : list A) :
  In (j, x) (enumerate_from i l) -> In x l.
Proof.
  revert i; induction l as [|y l IH]; intros i H; [contradiction|].
  simpl in H. destruct H as [E | H]; [injection E as _ ->; now left|].
  right. eapply IH. exact H.
Qed.

Lemma seq_prefix (i k n : nat) : (k <= n)%nat -> firstn k (seq i n) = seq i k.
Proof.
  revert i n; induction k as [|k IH]; intros i n H; [reflexivity|].
  destruct n as [|n]; [lia|]. simpl. f_equal. apply IH. lia.
Qed.

(** X14.  When no average rating is NaN, HIGHEST RATED FEATURES lists
    an initial stretch of the ranking by rating: the entries rated
    above 0 come before all others, so the ranks shown are 1, 2, ...
    without a gap. *)
Theorem highest_rated_is_prefix (feature_analysis : dict FeatureRecord) :
  (forall x, In x feature_analysis -> is_number (avg_rating (snd x)) = true) ->
  exists k,
    highest_rated feature_analysis =
      firstn k (enumerate (firstn 10 (by_rating feature_analysis))) /\
    map fst (highest_rated feature_analysis) = seq 0 k /\
    (k <= 10)%nat.
Proof.
  intros Num. unfold highest_rated, enumerate.
  set (l := firstn 10 (by_rating feature_analysis)).
  set (p := fun ix : nat * item => PrimFloat.ltb 0 (avg_rating (snd (snd ix)))).
  assert (S : StronglySorted
                (fun a b : nat * item =>
                   PrimFloat.ltb (avg_rating (snd (snd a))) (avg_rating (snd (snd b))) = false)
                (enumerate_from 0 l)).
  { apply (enumerate_from_sorted
             (fun a b : item => PrimFloat.ltb (avg_rating (snd a)) (avg_rating (snd b)) = false)).
    apply StronglySorted_firstn. apply by_rating_descending. }
  assert (P : filter p (enumerate_from 0 l) =
              firstn (length (filter p (enumerate_from 0 l))) (enumerate_from 0 l)).
  { eapply filter_is_prefix; [|exact S].
    intros [i a] [j b] Ha _ Rab Pb. unfold p in *. cbn [snd] in *.
    apply (positive_above _ (avg_rating (snd b))); [|exact Pb | exact Rab].
    apply Num. apply enumerate_from_In in Ha.
    pose proof (sorted_perm PrimFloat.ltb (fun x : item => avg_rating (snd x)) true
                  feature_analysis) as Perm.
    fold (by_rating feature_analysis) in Perm.
    apply (Permutation_in _ Perm).
    rewrite <- (firstn_skipn 10 (by_rating feature_analysis)).
    apply in_or_app. left. exact Ha. }
  assert (L : (length (filter p (enumerate_from 0 l)) <= length l)%nat).
  { pose proof (filter_length_le p (enumerate_from 0 l)) as F.
    rewrite <- (length_map fst (enumerate_from 0 l)), enumerate_from_ranks, length_seq in F.
    exact F. }
  assert (T : (length l <= 10)%nat) by (unfold l; apply firstn_le_length).
  exists (length (filter p (enumerate_from 0 l))). split; [exact P|]. split; [|lia].
  rewrite P at 1. rewrite <- firstn_map, enumerate_from_ranks.
  now apply seq_prefix.
Qed.

Lemma highest_rated_is_prefix_witness :
  map (fun ix : nat * item => (fst ix, fst (snd ix))) (highest_rated rated_records) =
    [(0%nat, lit "screen"); (1%nat, lit "camera"); (2%nat, lit "sound")] /\
  exists k,
    highest_rated rated_records =
      firstn k (enumerate (firstn 10 (by_rating rated_records))) /\
    map fst (highest_rated rated_records) = seq 0 k /\
    (k <= 10)%nat.
Proof.
  split; [vm_compute; reflexivity|].
  apply (highest_rated_is_prefix rated_records).
  intros x Hx. cbn [rated_records In] in Hx.
  destruct Hx as [<- | [<- | [<- | [<- | [<- | []]]]]]; vm_compute; reflexivity.
Defined.

(** ** Runs that do not complete *)


(** ** Pattern matching *)

Lemma last_read_app (prev : option ascii) (a b : str) :
  last_read prev (a ++ b) = last_read (last_read prev a) b.
Proof.
  revert prev; induction a as [|c a IH]; intros prev; [reflexivity|].
  simpl app. rewrite !last_read_cons. apply IH.
Qed.

Lemma match_alt_sound (alt : alternative) (prev last : option ascii) (s rest : str) :
  match_alt alt prev s = Some (last, rest) ->
  exists mid, s = mid ++ rest /\ AltMatches alt mid /\ last = last_read prev mid.
Proof.
  revert prev s; induction alt as [|a alt IH]; intros prev s H; simpl in H.
  - injection H as <- <-. exists []. repeat split. constructor.
  - destruct s as [|c s]; [discriminate|].
    destruct (atom_matches a c) eqn:E; [|discriminate].
    destruct (IH _ _ H) as [mid [-> [M ->]]].
    exists (c :: mid). repeat split; [now constructor | now rewrite last_read_cons].
Qed.

Lemma match_alt_complete (alt : alternative) (prev : option ascii) (mid rest : str) :
  AltMatches alt mid ->
  match_alt alt prev (mid ++ rest) = Some (last_read prev mid, rest).
Proof.
  intros M. revert prev. induction M as [|a c alt mid E M IH]; intros prev; simpl.
  - reflexivity.
  - rewrite E, IH, last_read_cons. reflexivity.
Qed.

Lemma match_word_here_spec (alts : list alternative) (prev : option ascii) (s : str) :
  match_word_here alts prev s = true <->
  exists mid post alt,
    s = mid ++ post /\ In alt alts /\ AltMatches alt mid /\
    word_boundary prev s = true /\
    word_boundary (last_read prev mid) post = true.
Proof.
  unfold match_word_here. rewrite andb_true_iff, existsb_exists. split.
  - intros [B [alt [Hin H]]].
    destruct (match_alt alt prev s) as [[last rest]|] eqn:M; [|discriminate].
    apply match_alt_sound in M as [mid [-> [Hm ->]]].
    now exists mid, rest, alt.
  - intros [mid [post [alt [-> [Hin [Hm [B1 B2]]]]]]].
    split; [exact B1|]. exists alt. split; [exact Hin|].
    now rewrite (match_alt_complete _ _ _ _ Hm).
Qed.

Lemma search_word_from_spec (alts : list alternative) (prev : option ascii) (s : str) :
  search_word_from alts prev s = true <->
  exists pre mid post alt,
    s = pre ++ mid ++ post /\ In alt alts /\ AltMatches alt mid /\
    word_boundary (last_read prev pre) (mid ++ post) = true /\
    word_boundary (last_read (last_read prev pre) mid) post = true.
Proof.
  revert prev; induction s as [|c s IH]; intros prev.
  - cbn [search_word_from]. rewrite orb_false_r, match_word_here_spec. split.
    + intros [mid [post [alt [E [Hin [Hm [B1 B2]]]]]]].
      exists [], mid, post, alt. rewrite <- E. now repeat split.
    + intros [pre [mid [post [alt [E [Hin [Hm [B1 B2]]]]]]]].
      destruct pre; [|discriminate]. simpl in E.
      exists mid, post, alt. rewrite <- E in B1. now repeat split.
  - cbn [search_word_from]. rewrite orb_true_iff, match_word_here_spec, IH. split.
    + intros [[mid [post [alt [E [Hin [Hm [B1 B2]]]]]]] | [pre [mid [post [alt H]]]]].
      * exists [], mid, post, alt. rewrite <- E. now repeat split.
      * destruct H as [E [Hin [Hm [B1 B2]]]].
        exists (c :: pre), mid, post, alt. rewrite !last_read_cons.
        repeat split; try assumption. simpl. now rewrite E.
    + intros [pre [mid [post [alt [E [Hin [Hm [B1 B2]]]]]]]].
      destruct pre as [|d pre].
      * left. simpl in E. exists mid, post, alt. rewrite <- E in B1. now repeat split.
      * right. injection E as -> E. rewrite !last_read_cons in *.
        now exists pre, mid, post, alt.
Qed.

(** X16.  A review in ASCII is given a category label by the fixed
    patterns exactly when one of the words of that category's pattern
    matches a stretch of the lowercased text with a word boundary on
    each side; nothing else gives a category label through the
    patterns. *)
Theorem pattern_label_iff (review_lower label : str) :
  ascii_text review_lower = true ->
  (In label (pattern_features review_lower) <->
   exists alts, In (label, alts) feature_patterns /\ MatchesWord alts review_lower).
Proof.
  intros _. unfold pattern_features, MatchesWord. rewrite in_map_iff. split.
  - intros [[l alts] [E H]]. simpl in E. subst l.
    apply filter_In in H as [Hin S]. simpl in S.
    exists alts. split; [exact Hin|].
    now apply (search_word_from_spec alts None review_lower).
  - intros [alts [Hin M]]. exists (label, alts). split; [reflexivity|].
    apply filter_In. split; [exact Hin|].
    now apply (search_word_from_spec alts None review_lower).
Qed.

Lemma pattern_label_iff_witness :
  (exists alts,
     In (lit "battery", alts) feature_patterns /\
     MatchesWord alts (lit "the charging is slow")) /\
  ~ (exists alts,
       In (lit "battery", alts) feature_patterns /\
       MatchesWord alts (lit "supercharged and powerful")).
Proof.
  split.
  - apply (proj1 (pattern_label_iff (lit "the charging is slow") (lit "battery") eq_refl)).
    vm_compute. left. reflexivity.
  - intros H.
    apply (proj2 (pattern_label_iff (lit "supercharged and powerful") (lit "battery")
                    eq_refl)) in H.
    vm_compute in H. exact H.
Defined.

(** ** Rows and their index *)

Lemma enumerate_from_nth {A : Type} (i j : nat) (x d : A) (l : list A) :
  In (j, x) (enumerate_from i l) ->
  (i <= j < i + length l)%nat /\ nth (j - i) l d = x.
Proof.
  revert i; induction l as [|y l IH]; intros i H; [contradiction|].
  simpl in H. destruct H as [E | H].
  - injection E as -> ->. split; [simpl; lia|]. now rewrite Nat.sub_diag.
  - apply IH in H as [B N]. split; [simpl; lia|].
    replace (j - i)%nat with (S (j - S i)) by lia. exact N.
Qed.

(** X17.  A review keeps its row index when rows with a missing text are
    dropped: every review scanned for a label is the cell of the text
    column at its own index, so the rating read for it, at that index,
    is the rating of the same row. *)
Theorem reviews_keep_their_row (df : DataFrame) (review_col feature : str)
    (idx : nat) (review : cell) :
  In (idx, review) (mentioning df review_col feature) ->
  (idx < length (rows df))%nat /\
  review = loc df idx review_col /\
  isna review = false /\
  contains feature (lower (as_str review)) = true.
Proof.
  unfold mentioning, dropna_items, column_items. intros H.
  apply filter_In in H as [H C]. apply filter_In in H as [H N].
  cbn [snd] in *.
  apply (enumerate_from_nth 0 idx review missing_cell) in H as [B E].
  rewrite length_map in B. rewrite Nat.sub_0_r in E.
  split; [lia|]. split; [|split; [now apply negb_true_iff in N | exact C]].
  unfold loc. rewrite <- E.
  rewrite (nth_indep _ missing_cell
             (nth (column_position review_col (columns df)) [] missing_cell))
    by (rewrite length_map; lia).
  rewrite (map_nth (fun row => nth (column_position review_col (columns df)) row missing_cell)).
  reflexivity.
Qed.

Lemma reviews_keep_their_row_witness :
  (1 < length (rows unreadable_scores))%nat /\
  text_cell "bad camera" = loc unreadable_scores 1 (lit "comment") /\
  isna (text_cell "bad camera") = false /\
  contains (lit "camera") (lower (as_str (text_cell "bad camera"))) = true.
Proof.
  apply (reviews_keep_their_row unreadable_scores (lit "comment") (lit "camera") 1
           (text_cell "bad camera")).
  right. left. reflexivity.
Defined.

(** ** Runs without ratings *)





